(** * Bookshelf API: the five request handlers of [src/handler.js]

    The handlers work on one module-level array [books] (required from
    [./books], an array that starts empty).  Each handler is embedded as a
    function that takes the array as it is before the call and returns
    what the call does, a response or an exception, together with the
    array as it is after the call.  The two sources of nondeterminism,
    [nanoid(16)] and [new Date().toISOString()], are inputs of the
    handlers that use them.

    Payload and query fields are JavaScript values as a JSON body or a
    query string delivers them: undefined (absent), null, booleans,
    numbers, strings, arrays and plain objects.  The handlers test them
    with [typeof], [===], [>] and [Number(...)], so these operators are
    embedded with their ECMAScript meaning, exceptions included. *)

From Stdlib Require Import ZArith Ascii String List Bool Lia DecimalString.
From stdpp Require Import base list.
Import ListNotations.

Local Open Scope string_scope.
Local Open Scope Z_scope.
Local Open Scope list_scope.

Local Set Warnings "-register-all".

(** ** ECMAScript numbers

    The handlers never do arithmetic: they only compare numbers ([<] and
    [===]) and convert between numbers and strings.  The Number type is
    therefore kept abstract, with the operations the handlers reach and
    the IEEE-754 facts about NaN; every property below holds for any such
    number type, binary64 included. *)
Class JSNumber : Type := {
  number : Type;
  NaN : number;
  (* +0 and 1, the results of ToNumber on null, false and true *)
  num_zero : number;
  num_one : number;
  (* Number::lessThan with undefined read as false, as [<] and [>] do *)
  num_lt : number -> number -> bool;
  (* Number::equal *)
  num_eq : number -> number -> bool;
  (* StringToNumber *)
  StringToNumber : string -> number;
  (* Number::toString, radix 10 *)
  NumberToString : number -> string;
  num_lt_NaN_l : forall y, num_lt NaN y = false;
  num_lt_NaN_r : forall x, num_lt x NaN = false;
  num_eq_NaN_l : forall y, num_eq NaN y = false;
  num_eq_NaN_r : forall x, num_eq x NaN = false
}.

(** ** Completions: a call returns or throws *)

Inductive exn : Type := TypeError.

Inductive completion (A : Type) : Type :=
| Normal (a : A)
| Throw (e : exn).

Arguments Normal {A} a.
Arguments Throw {A} e.

Definition bind {A B : Type} (c : completion A) (k : A -> completion B)
  : completion B :=
  match c with
  | Normal a => k a
  | Throw e => Throw e
  end.

Definition returns {A : Type} (c : completion A) : bool :=
  match c with
  | Normal _ => true
  | Throw _ => false
  end.

(** [arr.filter(cb)] with a callback that may throw: the elements are
    visited in order and the first exception ends the call. *)
Fixpoint filter_throwing {A : Type} (cb : A -> completion bool) (arr : list A)
  : completion (list A) :=
  match arr with
  | [] => Normal []
  | x :: rest =>
      bind (cb x) (fun keep =>
      bind (filter_throwing cb rest) (fun kept =>
      Normal (if keep then x :: kept else kept)))
  end.

(** [arr.findIndex(cb)]: the first index whose element satisfies [cb],
    or -1 *)
Fixpoint findIndex_from {A : Type} (cb : A -> bool) (arr : list A) (i : Z)
  : Z :=
  match arr with
  | [] => -1
  | x :: rest => if cb x then i else findIndex_from cb rest (i + 1)
  end.

Definition findIndex {A : Type} (cb : A -> bool) (arr : list A) : Z :=
  findIndex_from cb arr 0.

Section Model.
Context {Num : JSNumber}.

(** ** Values

    [JArr] and [JObj] are the arrays and plain objects that [JSON.parse]
    builds: their only prototypes are [Array.prototype] and
    [Object.prototype], and no property of theirs is a function. *)

Inductive jsval : Type :=
| JUndefined
| JNull
| JBool (b : bool)
| JNum (n : number)
| JStr (s : string)
| JArr (items : list jsval)
| JObj (props : list (string * jsval)).

Inductive primitive : Type :=
| PUndefined
| PNull
| PBool (b : bool)
| PNum (n : number)
| PStr (s : string).

Definition typeof (v : jsval) : string :=
  match v with
  | JUndefined => "undefined"
  | JNull => "object"
  | JBool _ => "boolean"
  | JNum _ => "number"
  | JStr _ => "string"
  | JArr _ => "object"
  | JObj _ => "object"
  end.

(** [x === y] on two values read from one parsed body: an array or an
    object is equal to itself only, and two properties never hold the
    same one. *)
Definition strict_eq (x y : jsval) : bool :=
  match x, y with
  | JUndefined, JUndefined => true
  | JNull, JNull => true
  | JBool a, JBool b => Bool.eqb a b
  | JNum a, JNum b => num_eq a b
  | JStr a, JStr b => String.eqb a b
  | _, _ => false
  end.

Definition has_own (key : string) (props : list (string * jsval)) : bool :=
  existsb (fun kv => String.eqb (fst kv) key) props.

(** [ToString(v)].  An array is joined with commas, [undefined] and
    [null] elements giving the empty string.  For a plain object
    OrdinaryToPrimitive finds no callable [valueOf] that returns a
    primitive, so the answer is that of [toString]: the inherited one
    gives "[object Object]", and an own property [toString] hides it with
    a value that cannot be called, which ends in a TypeError. *)
Fixpoint ToString (v : jsval) : completion string :=
  match v with
  | JUndefined => Normal "undefined"
  | JNull => Normal "null"
  | JBool true => Normal "true"
  | JBool false => Normal "false"
  | JNum n => Normal (NumberToString n)
  | JStr s => Normal s
  | JArr items =>
      (fix join (elements : list jsval) : completion string :=
         match elements with
         | [] => Normal ""
         | element :: rest =>
             bind (match element with
                   | JUndefined | JNull => Normal ""
                   | _ => ToString element
                   end) (fun next =>
             match rest with
             | [] => Normal next
             | _ => bind (join rest) (fun r => Normal (next ++ "," ++ r)%string)
             end)
         end) items
  | JObj props =>
      if has_own "toString" props then Throw TypeError
      else Normal "[object Object]"
  end.

(** [ToPrimitive(v)], with either hint *)
Definition ToPrimitive (v : jsval) : completion primitive :=
  match v with
  | JUndefined => Normal PUndefined
  | JNull => Normal PNull
  | JBool b => Normal (PBool b)
  | JNum n => Normal (PNum n)
  | JStr s => Normal (PStr s)
  | JArr _ | JObj _ => bind (ToString v) (fun s => Normal (PStr s))
  end.

Definition ToNumber (p : primitive) : number :=
  match p with
  | PUndefined => NaN
  | PNull => num_zero
  | PBool true => num_one
  | PBool false => num_zero
  | PNum n => n
  | PStr s => StringToNumber s
  end.

(** [Number(v)] *)
Definition Number (v : jsval) : completion number :=
  bind (ToPrimitive v) (fun p => Normal (ToNumber p)).

(** IsLessThan on primitives: two strings are compared by code units,
    anything else after ToNumber; a comparison with NaN is not true. *)
Definition primitive_lt (x y : primitive) : bool :=
  match x, y with
  | PStr a, PStr b => String.ltb a b
  | _, _ => num_lt (ToNumber x) (ToNumber y)
  end.

(** [x > y]: both operands are made primitive, the left one first, and
    the answer is that of [y < x]. *)
Definition js_gt (x y : jsval) : completion bool :=
  bind (ToPrimitive x) (fun px =>
  bind (ToPrimitive y) (fun py =>
  Normal (primitive_lt py px))).

(** ** Strings

    A string is a sequence of 8-bit code units.  On ASCII text
    [toLowerCase] and [includes] below are those of JavaScript; a property
    that depends on the letters of a name says so with [ascii_text]. *)

Definition lower_ascii (c : ascii) : ascii :=
  let n := N_of_ascii c in
  if ((65 <=? n) && (n <=? 90))%N then ascii_of_N (n + 32) else c.

(** [s.toLowerCase()] on ASCII text *)
Fixpoint toLowerCase (s : string) : string :=
  match s with
  | EmptyString => EmptyString
  | String c s' => String (lower_ascii c) (toLowerCase s')
  end.

(** [s.includes(search)] *)
Fixpoint includes (s search : string) : bool :=
  String.prefix search s ||
  match s with
  | EmptyString => false
  | String _ s' => includes s' search
  end.

(** ** Records *)

(** A stored book: the twelve properties of [newBook]. *)
Record book : Type := mkBook {
  b_id : string;
  b_name : jsval;
  b_year : jsval;
  b_author : jsval;
  b_summary : jsval;
  b_publisher : jsval;
  b_pageCount : jsval;
  b_readPage : jsval;
  b_finished : bool;
  b_reading : jsval;
  b_insertedAt : string;
  b_updatedAt : string
}.

(** The eight properties that the add and edit handlers read from
    [request.payload].  The payload itself is an [option payload]: [None]
    is a request without a body, whose payload is [null] and cannot be
    destructured.  A property that the body does not have is
    [JUndefined]. *)
Record payload : Type := mkPayload {
  p_name : jsval;
  p_year : jsval;
  p_author : jsval;
  p_summary : jsval;
  p_publisher : jsval;
  p_pageCount : jsval;
  p_readPage : jsval;
  p_reading : jsval
}.

(** [request.query] of the list handler, destructured *)
Record query : Type := mkQuery {
  q_name : jsval;
  q_reading : jsval;
  q_finished : jsval
}.

(** An entry of [listBook] *)
Record book_summary : Type := mkSummary {
  s_id : string;
  s_name : jsval;
  s_publisher : jsval
}.

(** ** Responses *)

Inductive response_data : Type :=
| NoData
| DataBookId (bookId : string)
| DataBooks (books : list book_summary)
| DataBook (b : book).

Record response : Type := mkResponse {
  status : string;
  message : option string;
  data : response_data;
  statusCode : Z
}.

(** [h.response({status, message, data})]; the toolkit's default code *)
Definition h_response (st : string) (msg : option string) (d : response_data)
  : response :=
  {| status := st; message := msg; data := d; statusCode := 200 |}.

(** [response.code(n)] *)
Definition code (n : Z) (r : response) : response :=
  {| status := status r; message := message r; data := data r;
     statusCode := n |}.

(** ** addBookHandler

    [id] is the value of [nanoid(16)] and [now] the value of
    [new Date().toISOString()] in this call. *)
Definition newBook (id now : string) (p : payload) : book :=
  {| b_id := id;
     b_name := p_name p;
     b_year := p_year p;
     b_author := p_author p;
     b_summary := p_summary p;
     b_publisher := p_publisher p;
     b_pageCount := p_pageCount p;
     b_readPage := p_readPage p;
     b_finished := strict_eq (p_pageCount p) (p_readPage p);
     b_reading := p_reading p;
     b_insertedAt := now;
     b_updatedAt := now |}.

Definition addBookHandler (books : list book) (id now : string)
  (payload : option payload) : completion response * list book :=
  match payload with
  | None => (Throw TypeError, books)
  | Some p =>
      if String.eqb (typeof (p_name p)) "undefined" then
        (Normal (code 400 (h_response "fail"
           (Some "Gagal menambahkan buku. Mohon isi nama buku") NoData)),
         books)
      else
        match js_gt (p_readPage p) (p_pageCount p) with
        | Throw e => (Throw e, books)
        | Normal true =>
            (Normal (code 400 (h_response "fail"
               (Some "Gagal menambahkan buku. readPage tidak boleh lebih besar dari pageCount")
               NoData)),
             books)
        | Normal false =>
            let books := books ++ [newBook id now p] in
            let isSuccess :=
              (0 <? Z.of_nat (length (List.filter
                                        (fun b => String.eqb (b_id b) id)
                                        books))) in
            if isSuccess then
              (Normal (code 201 (h_response "success"
                 (Some "Buku berhasil ditambahkan") (DataBookId id))),
               books)
            else
              (Normal (code 500 (h_response "error"
                 (Some "Buku gagal ditambahkan") NoData)),
               books)
        end
  end.

(** ** getAllBooksHandler *)

(** The callback of the name filter,
    [book.name.toLowerCase().includes(name.toLowerCase())]: [toLowerCase]
    is a function on strings only, so any other [book.name] or [name]
    raises a TypeError. *)
Definition name_matches (name : jsval) (b : book) : completion bool :=
  match b_name b with
  | JStr bn =>
      match name with
      | JStr n => Normal (includes (toLowerCase bn) (toLowerCase n))
      | _ => Throw TypeError
      end
  | _ => Throw TypeError
  end.

(** [Number(book.reading) === Number(reading)] *)
Definition reading_matches (reading : jsval) (b : book) : completion bool :=
  bind (Number (b_reading b)) (fun stored =>
  bind (Number reading) (fun wanted =>
  Normal (num_eq stored wanted))).

(** [Number(book.finished) === Number(finished)] *)
Definition finished_matches (finished : jsval) (b : book) : completion bool :=
  bind (Number (JBool (b_finished b))) (fun stored =>
  bind (Number finished) (fun wanted =>
  Normal (num_eq stored wanted))).

Definition summary_of (b : book) : book_summary :=
  {| s_id := b_id b; s_name := b_name b; s_publisher := b_publisher b |}.

Definition getAllBooksHandler (books : list book) (q : query)
  : completion response :=
  if (Z.of_nat (length books) =? 0) then
    Normal (code 200 (h_response "success" None (DataBooks [])))
  else
    let filterBook := books in
    bind (if negb (String.eqb (typeof (q_name q)) "undefined")
          then filter_throwing (name_matches (q_name q)) books
          else Normal filterBook) (fun filterBook =>
    bind (if negb (String.eqb (typeof (q_reading q)) "undefined")
          then filter_throwing (reading_matches (q_reading q)) books
          else Normal filterBook) (fun filterBook =>
    bind (if negb (String.eqb (typeof (q_finished q)) "undefined")
          then filter_throwing (finished_matches (q_finished q)) books
          else Normal filterBook) (fun filterBook =>
    let listBook := map summary_of filterBook in
    Normal (code 200 (h_response "success" None (DataBooks listBook)))))).

(** ** getBookByIdHandler *)

Definition getBookByIdHandler (books : list book) (bookId : string)
  : response :=
  match List.filter (fun n => String.eqb (b_id n) bookId) books with
  | b :: _ => code 200 (h_response "success" None (DataBook b))
  | [] => code 404 (h_response "fail" (Some "Buku tidak ditemukan") NoData)
  end.

(** ** editBookByIdHandler *)

(** [{...old, name, year, author, summary, publisher, pageCount, readPage,
    reading, updatedAt}] *)
Definition edited (p : payload) (updatedAt : string) (old : book) : book :=
  {| b_id := b_id old;
     b_name := p_name p;
     b_year := p_year p;
     b_author := p_author p;
     b_summary := p_summary p;
     b_publisher := p_publisher p;
     b_pageCount := p_pageCount p;
     b_readPage := p_readPage p;
     b_finished := b_finished old;
     b_reading := p_reading p;
     b_insertedAt := b_insertedAt old;
     b_updatedAt := updatedAt |}.

Definition editBookByIdHandler (books : list book) (bookId now : string)
  (payload : option payload) : completion response * list book :=
  match payload with
  | None => (Throw TypeError, books)
  | Some p =>
      let index := findIndex (fun b => String.eqb (b_id b) bookId) books in
      if String.eqb (typeof (p_name p)) "undefined" then
        (Normal (code 400 (h_response "fail"
           (Some "Gagal memperbarui buku. Mohon isi nama buku") NoData)),
         books)
      else
        match js_gt (p_readPage p) (p_pageCount p) with
        | Throw e => (Throw e, books)
        | Normal true =>
            (Normal (code 400 (h_response "fail"
               (Some "Gagal memperbarui buku. readPage tidak boleh lebih besar dari pageCount")
               NoData)),
             books)
        | Normal false =>
            if negb (index =? -1) then
              (Normal (code 200 (h_response "success"
                 (Some "Buku berhasil diperbarui") NoData)),
               alter (edited p now) (Z.to_nat index) books)
            else
              (Normal (code 404 (h_response "fail"
                 (Some "Gagal memperbarui buku. Id tidak ditemukan") NoData)),
               books)
        end
  end.

(** ** deleteBookByIdHandler: [books.splice(index, 1)] *)

Definition deleteBookByIdHandler (books : list book) (bookId : string)
  : response * list book :=
  let index := findIndex (fun b => String.eqb (b_id b) bookId) books in
  if negb (index =? -1) then
    (code 200 (h_response "success" (Some "Buku berhasil dihapus") NoData),
     delete (Z.to_nat index) books)
  else
    (code 404 (h_response "fail"
       (Some "Buku gagal dihapus. Id tidak ditemukan") NoData),
     books).

End Model.

(** ** A number type to run the handlers on

    Integers with NaN.  [StringToNumber] reads the decimal integer literals
    of the StringNumericLiteral grammar: surrounding white space is dropped,
    the empty string is 0, a sign may precede the digits, and everything
    else is NaN.  [NumberToString] writes the decimal digits. *)

Definition znum : Type := option Z.

Definition znum_lt (x y : znum) : bool :=
  match x, y with
  | Some a, Some b => a <? b
  | _, _ => false
  end.

Definition znum_eq (x y : znum) : bool :=
  match x, y with
  | Some a, Some b => a =? b
  | _, _ => false
  end.

Definition is_white (c : ascii) : bool :=
  let n := N_of_ascii c in
  ((n =? 32) || ((9 <=? n) && (n <=? 13)))%N.

Fixpoint trim_start (s : string) : string :=
  match s with
  | EmptyString => EmptyString
  | String c s' => if is_white c then trim_start s' else s
  end.

Fixpoint trim_end (s : string) : string :=
  match s with
  | EmptyString => EmptyString
  | String c s' =>
      match trim_end s' with
      | EmptyString => if is_white c then EmptyString else String c EmptyString
      | t => String c t
      end
  end.

Definition digit_of (c : ascii) : option Z :=
  let n := N_of_ascii c in
  if ((48 <=? n) && (n <=? 57))%N then Some (Z.of_N n - 48) else None.

Fixpoint digits_from (s : string) (acc : Z) : znum :=
  match s with
  | EmptyString => Some acc
  | String c s' =>
      match digit_of c with
      | Some d => digits_from s' (10 * acc + d)
      | None => None
      end
  end.

Definition unsigned_literal (s : string) : znum :=
  match s with
  | EmptyString => None
  | _ => digits_from s 0
  end.

Definition znum_of_string (s : string) : znum :=
  match trim_end (trim_start s) with
  | EmptyString => Some 0
  | String "+" r => unsigned_literal r
  | String "-" r => option_map Z.opp (unsigned_literal r)
  | t => unsigned_literal t
  end.

Definition znum_to_string (x : znum) : string :=
  match x with
  | Some z => NilZero.string_of_int (Z.to_int z)
  | None => "NaN"
  end.

#[export] Instance ZNumber : JSNumber := {|
  number := znum;
  NaN := None;
  num_zero := Some 0;
  num_one := Some 1;
  num_lt := znum_lt;
  num_eq := znum_eq;
  StringToNumber := znum_of_string;
  NumberToString := znum_to_string;
  num_lt_NaN_l := fun _ => eq_refl;
  num_lt_NaN_r := fun x => match x with Some _ => eq_refl | None => eq_refl end;
  num_eq_NaN_l := fun _ => eq_refl;
  num_eq_NaN_r := fun x => match x with Some _ => eq_refl | None => eq_refl end
|}.

(** ** Vocabulary of the properties *)

Section Vocabulary.
Context {Num : JSNumber}.

(** A filter or field is supplied when it is not [undefined]. *)
Definition supplied (v : jsval) : bool :=
  match v with
  | JUndefined => false
  | _ => true
  end.

Definition supplied_filters (q : query) : nat :=
  (Nat.b2n (supplied (q_name q)) + Nat.b2n (supplied (q_reading q))
   + Nat.b2n (supplied (q_finished q)))%nat.

Definition is_string (v : jsval) : bool :=
  match v with
  | JStr _ => true
  | _ => false
  end.

(** [Number(v)] returns: [v] is not an object with an own [toString]
    property, nor an array that holds one. *)
Definition converts (v : jsval) : bool := returns (Number v).

(** The values that cannot be made primitive: an object with an own
    [toString] property, and an array that holds such a value, at any
    depth. *)
Fixpoint hides_toString (v : jsval) : bool :=
  match v with
  | JObj props => has_own "toString" props
  | JArr items =>
      (fix any (elements : list jsval) : bool :=
         match elements with
         | [] => false
         | element :: rest => hides_toString element || any rest
         end) items
  | _ => false
  end.

(** A callback answered [true]. *)
Definition holds (c : completion bool) : bool :=
  match c with
  | Normal true => true
  | _ => false
  end.

(** The name step of a List call runs its callback on every book of a
    nonempty collection; it raises a TypeError unless the filter and every
    stored name are strings. *)
Definition name_step_raises (books : list book) (q : query) : bool :=
  match books with
  | [] => false
  | _ =>
      supplied (q_name q)
      && negb (is_string (q_name q)
               && forallb (fun b => is_string (b_name b)) books)
  end.

(** The reading step raises a TypeError unless the filter and every
    stored reading value convert to a number, and the finished step unless
    the filter does. *)
Definition reading_step_raises (books : list book) (q : query) : bool :=
  match books with
  | [] => false
  | _ =>
      supplied (q_reading q)
      && negb (converts (q_reading q)
               && forallb (fun b => converts (b_reading b)) books)
  end.

Definition finished_step_raises (books : list book) (q : query) : bool :=
  match books with
  | [] => false
  | _ => supplied (q_finished q) && negb (converts (q_finished q))
  end.

Definition list_raises (books : list book) (q : query) : bool :=
  name_step_raises books q || reading_step_raises books q
  || finished_step_raises books q.

(** The filter applied last when several are supplied: [finished] if it
    is there, and [reading] otherwise. *)
Definition last_filter (q : query) (b : book) : bool :=
  if supplied (q_finished q) then holds (finished_matches (q_finished q) b)
  else holds (reading_matches (q_reading q) b).

(** The response of a List call that returns [listBook]. *)
Definition list_response (listBook : list book_summary) : response :=
  {| status := "success"; message := None; data := DataBooks listBook;
     statusCode := 200 |}.

(** The test of the name step once it cannot raise: the lower-cased
    stored name contains the lower-cased filter. *)
Definition name_contains (name : jsval) (b : book) : bool :=
  match b_name b, name with
  | JStr bn, JStr n => includes (toLowerCase bn) (toLowerCase n)
  | _, _ => false
  end.

(** The one filter that decides a List call: the last supplied one in
    the order name, reading, finished, and none when nothing is supplied. *)
Definition effective_filter (q : query) (b : book) : bool :=
  if supplied (q_finished q) then holds (finished_matches (q_finished q) b)
  else if supplied (q_reading q) then holds (reading_matches (q_reading q) b)
  else if supplied (q_name q) then name_contains (q_name q) b
  else true.

(** Text in which [toLowerCase] changes the letters A to Z and nothing
    else. *)
Fixpoint ascii_text (s : string) : bool :=
  match s with
  | EmptyString => true
  | String c s' => (N_of_ascii c <? 128)%N && ascii_text s'
  end.

Definition is_ascii_string (v : jsval) : bool :=
  match v with
  | JStr s => ascii_text s
  | _ => false
  end.

(** What both write validations let through: the name is supplied and
    [readPage > pageCount] is false. *)
Definition passes_validation (name pageCount readPage : jsval) : bool :=
  supplied name
  && match js_gt readPage pageCount with
     | Normal false => true
     | _ => false
     end.

Definition stored_ok (b : book) : bool :=
  passes_validation (b_name b) (b_pageCount b) (b_readPage b).

(** The requests that write to the collection, and the collection after
    a sequence of them on the empty array the module starts with. *)
Inductive write_request : Type :=
| ReqAdd (id now : string) (payload : option payload)
| ReqEdit (bookId now : string) (payload : option payload)
| ReqDelete (bookId : string).

Definition serve (books : list book) (req : write_request) : list book :=
  match req with
  | ReqAdd id now payload => snd (addBookHandler books id now payload)
  | ReqEdit bookId now payload =>
      snd (editBookByIdHandler books bookId now payload)
  | ReqDelete bookId => snd (deleteBookByIdHandler books bookId)
  end.

Definition serve_all (reqs : list write_request) : list book :=
  fold_left serve reqs [].

End Vocabulary.

(** ** Sample requests, on [ZNumber] *)

Definition num (z : Z) : jsval := JNum (Some z).

Definition payload_alpha : payload :=
  {| p_name := JStr "Alpha"; p_year := num 2020; p_author := JStr "Ann";
     p_summary := JStr "first"; p_publisher := JStr "Pub A";
     p_pageCount := num 100; p_readPage := num 100;
     p_reading := JBool true |}.

Definition payload_beta : payload :=
  {| p_name := JStr "Beta"; p_year := num 2021; p_author := JStr "Bob";
     p_summary := JStr "second"; p_publisher := JStr "Pub B";
     p_pageCount := num 50; p_readPage := num 60;
     p_reading := JBool false |}.

Definition payload_gamma : payload :=
  {| p_name := JStr "Gamma"; p_year := num 2022; p_author := JStr "Cy";
     p_summary := JStr "third"; p_publisher := JStr "Pub C";
     p_pageCount := num 80; p_readPage := num 20;
     p_reading := JBool true |}.

Definition payload_epsilon : payload :=
  {| p_name := JStr "Epsilon"; p_year := num 2023; p_author := JStr "Eve";
     p_summary := JStr "fifth"; p_publisher := JStr "Pub E";
     p_pageCount := num 30; p_readPage := num 30;
     p_reading := JBool false |}.

(** No [name] and [readPage > pageCount] at once *)
Definition payload_nameless : payload :=
  {| p_name := JUndefined; p_year := num 2021; p_author := JStr "Bob";
     p_summary := JStr "second"; p_publisher := JStr "Pub B";
     p_pageCount := num 50; p_readPage := num 60;
     p_reading := JBool false |}.

(** Only [readPage] is sent *)
Definition payload_readPage_only : payload :=
  {| p_name := JUndefined; p_year := JUndefined; p_author := JUndefined;
     p_summary := JUndefined; p_publisher := JUndefined;
     p_pageCount := JUndefined; p_readPage := num 5;
     p_reading := JUndefined |}.

(** [name] and [readPage] are sent, [pageCount] is not *)
Definition payload_no_pageCount : payload :=
  {| p_name := JStr "Delta"; p_year := JUndefined; p_author := JUndefined;
     p_summary := JUndefined; p_publisher := JUndefined;
     p_pageCount := JUndefined; p_readPage := num 5;
     p_reading := JUndefined |}.

(** [{"name": null}] *)
Definition payload_null_name : payload :=
  {| p_name := JNull; p_year := JUndefined; p_author := JUndefined;
     p_summary := JUndefined; p_publisher := JUndefined;
     p_pageCount := num 10; p_readPage := num 1;
     p_reading := JBool false |}.

Definition book_alpha : book := newBook "id-alpha-00000001" "2024-01-01T00:00:00.000Z" payload_alpha.
Definition book_gamma : book := newBook "id-gamma-00000003" "2024-01-03T00:00:00.000Z" payload_gamma.

Definition book_epsilon : book := newBook "id-epsilon-000005" "2024-01-05T00:00:00.000Z" payload_epsilon.

(** Alpha is finished and being read, Gamma is unfinished and being read,
    Epsilon is finished and not being read. *)
Definition shelf : list book := [book_alpha; book_gamma; book_epsilon].

Definition later : string := "2024-02-02T00:00:00.000Z".

(** [?reading=1&finished=1] and [?name=alp&reading=1&finished=1] *)
Definition reading_and_finished : query :=
  {| q_name := JUndefined; q_reading := JStr "1"; q_finished := JStr "1" |}.

Definition all_three_filters : query :=
  {| q_name := JStr "alp"; q_reading := JStr "1"; q_finished := JStr "1" |}.

(** [?name=a] *)
Definition name_a : query :=
  {| q_name := JStr "a"; q_reading := JUndefined; q_finished := JUndefined |}.

Definition no_filter : query :=
  {| q_name := JUndefined; q_reading := JUndefined; q_finished := JUndefined |}.

(** [?reading=true], [?name=] and [?name=ALP] *)
Definition reading_true : query :=
  {| q_name := JUndefined; q_reading := JStr "true"; q_finished := JUndefined |}.

Definition name_empty : query :=
  {| q_name := JStr ""; q_reading := JUndefined; q_finished := JUndefined |}.

Definition name_ALP : query :=
  {| q_name := JStr "ALP"; q_reading := JUndefined; q_finished := JUndefined |}.

(** [{"toString": null}]: an object that [Number] cannot convert *)
Definition no_toString : jsval := JObj [("toString", JNull)].

(** [{"name": "Zeta", "reading": {"toString": null}}] *)
Definition payload_object_reading : payload :=
  {| p_name := JStr "Zeta"; p_year := JUndefined; p_author := JUndefined;
     p_summary := JUndefined; p_publisher := JUndefined;
     p_pageCount := JUndefined; p_readPage := JUndefined;
     p_reading := no_toString |}.

(** [?reading=1] *)
Definition reading_1 : query :=
  {| q_name := JUndefined; q_reading := JStr "1"; q_finished := JUndefined |}.

Definition session : list write_request :=
  [ReqAdd "id-alpha-00000001" "2024-01-01T00:00:00.000Z" (Some payload_alpha);
   ReqAdd "id-beta-000000002" "2024-01-02T00:00:00.000Z" (Some payload_beta);
   ReqAdd "id-none-000000006" "2024-01-02T00:00:00.000Z" None;
   ReqAdd "id-gamma-00000003" "2024-01-03T00:00:00.000Z" (Some payload_gamma);
   ReqEdit "id-gamma-00000003" later (Some payload_epsilon);
   ReqDelete "id-alpha-00000001"].

(** * Properties *)

Section Properties.
Context {Num : JSNumber}.

(** ** The operators *)

Lemma typeof_undefined (v : jsval) :
  String.eqb (typeof v) "undefined" = negb (supplied v).
Proof. destruct v; reflexivity. Qed.

Lemma supplied_false (v : jsval) : supplied v = false <-> v = JUndefined.
Proof. destruct v; simpl; split; intros; congruence. Qed.

Lemma supplied_true (v : jsval) : supplied v = true <-> v <> JUndefined.
Proof. destruct v; simpl; split; intros; congruence. Qed.

Lemma js_gt_number_undefined (n : number) :
  js_gt (JNum n) JUndefined = Normal false.
Proof. unfold js_gt. simpl. rewrite num_lt_NaN_l. reflexivity. Qed.

Lemma throw_TypeError {A : Type} (c : completion A) :
  returns c = false -> c = Throw TypeError.
Proof. destruct c as [a | []]; [discriminate | reflexivity]. Qed.

(** ** Array methods *)

Lemma first_match_split {A : Type} (cb : A -> bool) (arr : list A) :
  Forall (fun x => cb x = false) arr
  \/ exists l1 x l2,
       arr = l1 ++ x :: l2 /\ Forall (fun x => cb x = false) l1 /\ cb x = true.
Proof.
  induction arr as [|a arr IH].
  - left. constructor.
  - destruct (cb a) eqn:Ha.
    + right. exists [], a, arr. repeat split; [constructor | assumption].
    + destruct IH as [IH | (l1 & x & l2 & -> & Hl1 & Hx)].
      * left. constructor; assumption.
      * right. exists (a :: l1), x, l2. repeat split; try assumption.
        constructor; assumption.
Qed.

Lemma findIndex_from_none {A : Type} (cb : A -> bool) (arr : list A) (i : Z) :
  Forall (fun x => cb x = false) arr -> findIndex_from cb arr i = -1.
Proof.
  intros H. revert i. induction H as [|a arr Ha _ IH]; intros i; simpl.
  - reflexivity.
  - rewrite Ha. apply IH.
Qed.

Lemma findIndex_from_found {A : Type} (cb : A -> bool) (l1 l2 : list A)
  (x : A) (i : Z) :
  Forall (fun x => cb x = false) l1 -> cb x = true ->
  findIndex_from cb (l1 ++ x :: l2) i = i + Z.of_nat (length l1).
Proof.
  intros H Hx. revert i. induction H as [|a l1 Ha _ IH]; intros i; simpl.
  - rewrite Hx. lia.
  - rewrite Ha, IH. lia.
Qed.

Lemma findIndex_none {A : Type} (cb : A -> bool) (arr : list A) :
  Forall (fun x => cb x = false) arr -> findIndex cb arr = -1.
Proof. apply findIndex_from_none. Qed.

Lemma findIndex_found {A : Type} (cb : A -> bool) (l1 l2 : list A) (x : A) :
  Forall (fun x => cb x = false) l1 -> cb x = true ->
  findIndex cb (l1 ++ x :: l2) = Z.of_nat (length l1).
Proof. intros H Hx. unfold findIndex. rewrite findIndex_from_found; auto. Qed.

Lemma filter_none {A : Type} (cb : A -> bool) (arr : list A) :
  Forall (fun x => cb x = false) arr -> List.filter cb arr = [].
Proof.
  induction 1 as [|a arr Ha _ IH]; simpl; [reflexivity|].
  rewrite Ha. exact IH.
Qed.

Lemma id_differs (bookId : string) (books : list book) :
  Forall (fun b => b_id b <> bookId) books <->
  Forall (fun b => String.eqb (b_id b) bookId = false) books.
Proof.
  split; intros H; eapply Forall_impl; try exact H; simpl; intros b Hb.
  - apply String.eqb_neq. exact Hb.
  - apply String.eqb_neq in Hb. exact Hb.
Qed.

Lemma filter_all {A : Type} (cb : A -> bool) (arr : list A) :
  Forall (fun x => cb x = true) arr -> List.filter cb arr = arr.
Proof.
  induction 1 as [|a arr Ha _ IH]; simpl; [reflexivity|].
  rewrite Ha, IH. reflexivity.
Qed.

Lemma filter_sublist {A : Type} (cb : A -> bool) (arr : list A) :
  sublist (List.filter cb arr) arr.
Proof.
  induction arr as [|a arr IH]; simpl; [constructor|].
  destruct (cb a); [apply sublist_skip | apply sublist_cons]; exact IH.
Qed.

Lemma forallb_false_Exists {A : Type} (f : A -> bool) (l : list A) :
  forallb f l = false <-> Exists (fun x => f x = false) l.
Proof.
  induction l as [|a l IH]; simpl.
  - split; [discriminate | intros H; inversion H].
  - rewrite andb_false_iff, IH. split.
    + intros [H | H]; [apply Exists_cons_hd | apply Exists_cons_tl]; exact H.
    + intros H. inversion H; subst; auto.
Qed.

Lemma filter_throwing_ext {A : Type} (f g : A -> completion bool)
  (arr : list A) :
  (forall x, f x = g x) -> filter_throwing f arr = filter_throwing g arr.
Proof.
  intros H. induction arr as [|a arr IH]; simpl; [reflexivity|].
  rewrite H, IH. reflexivity.
Qed.

(** A filter with a throwing callback returns when every call of the
    callback does, and then keeps the elements it answered [true] for. *)
Lemma filter_throwing_outcome {A : Type} (cb : A -> completion bool)
  (arr : list A) :
  filter_throwing cb arr =
  if forallb (fun x => returns (cb x)) arr
  then Normal (List.filter (fun x => holds (cb x)) arr)
  else Throw TypeError.
Proof.
  induction arr as [|a arr IH]; simpl; [reflexivity|].
  destruct (cb a) as [keep | []]; simpl; [|reflexivity].
  rewrite IH. destruct (forallb (fun x => returns (cb x)) arr); simpl;
    [|reflexivity].
  destruct keep; reflexivity.
Qed.

(** One step of List on a nonempty collection: the callback returns on a
    book when the book passes [g] and the filter passes [c]. *)
Lemma step_outcome (cb : book -> completion bool) (c : bool)
  (g : book -> bool) (b : book) (books : list book) :
  (forall x, returns (cb x) = g x && c) ->
  filter_throwing cb (b :: books) =
  if c && forallb g (b :: books)
  then Normal (List.filter (fun x => holds (cb x)) (b :: books))
  else Throw TypeError.
Proof.
  intros Hcb. rewrite filter_throwing_outcome.
  replace (forallb (fun x => returns (cb x)) (b :: books))
    with (c && forallb g (b :: books)); [reflexivity|].
  revert b. induction books as [|x books IH]; intros b.
  - simpl. rewrite Hcb. destruct c, (g b); reflexivity.
  - specialize (IH x). cbn [forallb] in *. rewrite <- IH, Hcb.
    destruct c, (g b); reflexivity.
Qed.

(** ** The steps of List *)

Lemma name_returns (name : jsval) (b : book) :
  returns (name_matches name b) = is_string (b_name b) && is_string name.
Proof. unfold name_matches. destruct (b_name b), name; reflexivity. Qed.

Lemma name_holds (name : jsval) (b : book) :
  holds (name_matches name b) = name_contains name b.
Proof.
  unfold name_matches, name_contains.
  destruct (b_name b), name; try reflexivity.
  simpl. destruct (includes _ _); reflexivity.
Qed.

Lemma reading_returns (reading : jsval) (b : book) :
  returns (reading_matches reading b)
  = converts (b_reading b) && converts reading.
Proof.
  unfold reading_matches, converts.
  destruct (Number (b_reading b)); simpl; [|reflexivity].
  destruct (Number reading); reflexivity.
Qed.

Lemma finished_returns (finished : jsval) (b : book) :
  returns (finished_matches finished b) = true && converts finished.
Proof.
  unfold finished_matches, converts, Number at 1. simpl.
  destruct (Number finished); reflexivity.
Qed.

Lemma Forall_forallb {A : Type} (f : A -> bool) (l : list A) :
  Forall (fun x => f x = true) l -> forallb f l = true.
Proof. induction 1 as [|a l Ha _ IH]; simpl; [reflexivity|]. rewrite Ha, IH. reflexivity. Qed.

Lemma forallb_true {A : Type} (l : list A) : forallb (fun _ => true) l = true.
Proof. induction l; simpl; auto. Qed.

Lemma name_step (b : book) (books : list book) (q : query) :
  (if supplied (q_name q)
   then filter_throwing (name_matches (q_name q)) (b :: books)
   else Normal (b :: books)) =
  if name_step_raises (b :: books) q then Throw TypeError
  else Normal (if supplied (q_name q)
               then List.filter (name_contains (q_name q)) (b :: books)
               else b :: books).
Proof.
  unfold name_step_raises. destruct (supplied (q_name q)); [|reflexivity].
  rewrite (step_outcome _ (is_string (q_name q))
             (fun x => is_string (b_name x))) by (intros; apply name_returns).
  cbn [andb].
  destruct (is_string (q_name q)
            && forallb (fun x => is_string (b_name x)) (b :: books));
    [|reflexivity].
  cbn [negb]. f_equal. apply List.filter_ext. intros x. apply name_holds.
Qed.

Lemma reading_step (b : book) (books kept : list book) (q : query) :
  (if supplied (q_reading q)
   then filter_throwing (reading_matches (q_reading q)) (b :: books)
   else Normal kept) =
  if reading_step_raises (b :: books) q then Throw TypeError
  else Normal (if supplied (q_reading q)
               then List.filter
                      (fun x => holds (reading_matches (q_reading q) x))
                      (b :: books)
               else kept).
Proof.
  unfold reading_step_raises. destruct (supplied (q_reading q)); [|reflexivity].
  rewrite (step_outcome _ (converts (q_reading q))
             (fun x => converts (b_reading x)))
    by (intros; apply reading_returns).
  cbn [andb].
  destruct (converts (q_reading q)
            && forallb (fun x => converts (b_reading x)) (b :: books));
    reflexivity.
Qed.

Lemma finished_step (b : book) (books kept : list book) (q : query) :
  (if supplied (q_finished q)
   then filter_throwing (finished_matches (q_finished q)) (b :: books)
   else Normal kept) =
  if finished_step_raises (b :: books) q then Throw TypeError
  else Normal (if supplied (q_finished q)
               then List.filter
                      (fun x => holds (finished_matches (q_finished q) x))
                      (b :: books)
               else kept).
Proof.
  unfold finished_step_raises.
  destruct (supplied (q_finished q)); [|reflexivity].
  rewrite (step_outcome _ (converts (q_finished q)) (fun _ => true))
    by (intros; apply finished_returns).
  rewrite forallb_true, andb_true_r. cbn [andb].
  destruct (converts (q_finished q)); reflexivity.
Qed.

(** Every outcome of a List call. *)
Lemma getAllBooksHandler_spec (books : list book) (q : query) :
  getAllBooksHandler books q =
  if list_raises books q then Throw TypeError
  else Normal (list_response
                 (map summary_of (List.filter (effective_filter q) books))).
Proof.
  destruct books as [|b books]; [reflexivity|].
  unfold getAllBooksHandler, list_raises.
  change (Z.of_nat (length (b :: books)) =? 0) with false. cbv iota zeta.
  rewrite !typeof_undefined, !negb_involutive.
  rewrite name_step.
  destruct (name_step_raises (b :: books) q); [reflexivity|]. cbn [bind orb].
  rewrite reading_step.
  destruct (reading_step_raises (b :: books) q); [reflexivity|].
  cbn [bind orb]. rewrite finished_step.
  destruct (finished_step_raises (b :: books) q); [reflexivity|].
  cbn [bind]. unfold list_response, code, h_response. cbn [status message data].
  do 4 f_equal.
  destruct (supplied (q_finished q)) eqn:Hf;
    [|destruct (supplied (q_reading q)) eqn:Hr;
      [|destruct (supplied (q_name q)) eqn:Hn]];
    try (apply List.filter_ext; intros x; unfold effective_filter;
         rewrite ?Hf, ?Hr, ?Hn; reflexivity).
  symmetry. apply filter_all, List.Forall_forall. intros x _.
  unfold effective_filter. rewrite Hf, Hr, Hn. reflexivity.
Qed.

Lemma name_step_raises_cons (b : book) (books : list book) (q : query) :
  name_step_raises (b :: books) q =
  supplied (q_name q)
  && negb (is_string (q_name q)
           && forallb (fun b => is_string (b_name b)) (b :: books)).
Proof. reflexivity. Qed.

(** C1: when more than one of the filters name, reading, finished is
    supplied to List, the result set is the full collection filtered by
    the last supplied filter alone (finished, else reading); no earlier
    filter narrows it.  The call returns that set unless one of its steps
    raises a TypeError. *)
Theorem list_last_filter_wins (books : list book) (q : query) :
  (2 <= supplied_filters q)%nat ->
  getAllBooksHandler books q =
  if list_raises books q then Throw TypeError
  else Normal (list_response
                 (map summary_of (List.filter (last_filter q) books))).
Proof.
  intros Hmany. rewrite getAllBooksHandler_spec.
  destruct (list_raises books q); [reflexivity|]. do 3 f_equal.
  apply List.filter_ext. intros x. unfold effective_filter, last_filter.
  unfold supplied_filters in Hmany.
  destruct (supplied (q_name q)), (supplied (q_reading q)),
    (supplied (q_finished q)); simpl in Hmany; try reflexivity; lia.
Qed.

(** C9 (amended): a List call in which no step raises a TypeError
    answers status success with code 200 and a list of summaries; without
    any filter the list is the summary [{id, name, publisher}] of every
    record, in the order of the collection, and on an empty collection it
    is empty.  No step raises when the collection is empty, and otherwise
    when each supplied filter can be applied: the name filter and every
    stored name are strings, the reading filter and every stored reading
    value convert to a number, the finished filter converts to a number. *)
Theorem list_succeeds (books : list book) (q : query) :
  books = []
  \/ ((q_name q = JUndefined
       \/ (is_string (q_name q) = true
           /\ Forall (fun b => is_string (b_name b) = true) books))
      /\ (q_reading q = JUndefined
          \/ (converts (q_reading q) = true
              /\ Forall (fun b => converts (b_reading b) = true) books))
      /\ (q_finished q = JUndefined \/ converts (q_finished q) = true)) ->
  exists listBook,
    getAllBooksHandler books q =
    Normal {| status := "success"; message := None;
              data := DataBooks listBook; statusCode := 200 |}
    /\ (supplied_filters q = 0%nat ->
        listBook =
        map (fun b => mkSummary (b_id b) (b_name b) (b_publisher b)) books)
    /\ (books = [] -> listBook = []).
Proof.
  intros Hsafe. rewrite getAllBooksHandler_spec.
  assert (Hno : list_raises books q = false).
  { destruct books as [|b books]; [reflexivity|].
    destruct Hsafe as [? | (Hn & Hr & Hf)]; [discriminate|].
    unfold list_raises, name_step_raises, reading_step_raises,
      finished_step_raises.
    assert (H1 : supplied (q_name q)
                 && negb (is_string (q_name q)
                          && forallb (fun b => is_string (b_name b))
                               (b :: books)) = false).
    { destruct Hn as [-> | [-> Hall]]; [reflexivity|].
      rewrite (Forall_forallb _ _ Hall).
      apply andb_false_r. }
    assert (H2 : supplied (q_reading q)
                 && negb (converts (q_reading q)
                          && forallb (fun b => converts (b_reading b))
                               (b :: books)) = false).
    { destruct Hr as [-> | [-> Hall]]; [reflexivity|].
      rewrite (Forall_forallb _ _ Hall).
      apply andb_false_r. }
    assert (H3 : supplied (q_finished q) && negb (converts (q_finished q))
                 = false).
    { destruct Hf as [-> | ->]; [reflexivity | apply andb_false_r]. }
    rewrite H1, H2, H3. reflexivity. }
  rewrite Hno. eexists. split; [reflexivity|]. split.
  - unfold supplied_filters. intros H0.
    rewrite filter_all; [reflexivity|].
    apply List.Forall_forall. intros x _. unfold effective_filter.
    destruct (supplied (q_name q)), (supplied (q_reading q)),
      (supplied (q_finished q)); simpl in H0; try discriminate; reflexivity.
  - intros ->. reflexivity.
Qed.

(** ** Create *)

Lemma newBook_found (books : list book) (id now : string) (p : payload) :
  (0 <? Z.of_nat (length (List.filter (fun b => String.eqb (b_id b) id)
                            (books ++ [newBook id now p])))) = true.
Proof.
  rewrite List.filter_app. simpl. rewrite String.eqb_refl.
  rewrite List.length_app. simpl. apply Z.ltb_lt. lia.
Qed.

(** The ways out of [addBookHandler] on a payload that can be
    destructured; its last one, the 500 response, is gone. *)
Lemma addBookHandler_cases (books : list book) (id now : string) (p : payload) :
  addBookHandler books id now (Some p) =
  if negb (supplied (p_name p)) then
    (Normal {| status := "fail";
               message := Some "Gagal menambahkan buku. Mohon isi nama buku";
               data := NoData; statusCode := 400 |}, books)
  else
    match js_gt (p_readPage p) (p_pageCount p) with
    | Throw e => (Throw e, books)
    | Normal true =>
        (Normal {| status := "fail";
                   message := Some "Gagal menambahkan buku. readPage tidak boleh lebih besar dari pageCount";
                   data := NoData; statusCode := 400 |}, books)
    | Normal false =>
        (Normal {| status := "success";
                   message := Some "Buku berhasil ditambahkan";
                   data := DataBookId id; statusCode := 201 |},
         books ++ [newBook id now p])
    end.
Proof.
  unfold addBookHandler. rewrite typeof_undefined.
  destruct (negb (supplied (p_name p))); [reflexivity|].
  destruct (js_gt (p_readPage p) (p_pageCount p)) as [[|] | e];
    try reflexivity.
  cbv zeta. rewrite newBook_found. reflexivity.
Qed.

(** C3 (amended): a Create call whose payload can be destructured (it is
    not null) and has no [name], or has [readPage > pageCount], answers
    status fail with code 400 and leaves the collection as it was; the
    message is that of the name check whenever the name is missing, also
    when [readPage > pageCount]. *)
Theorem create_rejects_invalid (books : list book) (id now : string)
  (p : payload) :
  p_name p = JUndefined
  \/ js_gt (p_readPage p) (p_pageCount p) = Normal true ->
  addBookHandler books id now (Some p) =
  (Normal {| status := "fail";
             message :=
               Some (if supplied (p_name p)
                     then "Gagal menambahkan buku. readPage tidak boleh lebih besar dari pageCount"
                     else "Gagal menambahkan buku. Mohon isi nama buku");
             data := NoData; statusCode := 400 |},
   books).
Proof.
  intros H. rewrite addBookHandler_cases.
  destruct (supplied (p_name p)) eqn:Hs; cbn [negb]; [|reflexivity].
  destruct H as [H | H].
  - rewrite H in Hs. discriminate.
  - rewrite H. reflexivity.
Qed.

(** C5: Create never answers status error or code 500; a call that passes
    both validations appends the new record and answers status success,
    code 201, with the generated id. *)
Theorem create_internal_error_unreachable (books : list book)
  (id now : string) (payload : option payload) :
  (forall r, fst (addBookHandler books id now payload) = Normal r ->
             statusCode r <> 500 /\ status r <> "error")
  /\ (forall p,
        payload = Some p ->
        p_name p <> JUndefined ->
        js_gt (p_readPage p) (p_pageCount p) = Normal false ->
        addBookHandler books id now payload =
        (Normal {| status := "success";
                   message := Some "Buku berhasil ditambahkan";
                   data := DataBookId id; statusCode := 201 |},
         books ++ [mkBook id (p_name p) (p_year p) (p_author p) (p_summary p)
                     (p_publisher p) (p_pageCount p) (p_readPage p)
                     (strict_eq (p_pageCount p) (p_readPage p)) (p_reading p)
                     now now])).
Proof.
  split.
  - intros r. destruct payload as [p|]; [|discriminate].
    rewrite addBookHandler_cases.
    destruct (negb (supplied (p_name p)));
      [|destruct (js_gt (p_readPage p) (p_pageCount p)) as [[|] | e]];
      simpl; intros H; inversion H; subst; simpl; split; discriminate.
  - intros p -> Hname Hgt. rewrite addBookHandler_cases, Hgt.
    apply supplied_true in Hname. rewrite Hname. reflexivity.
Qed.

(** C6: after a successful Create the stored record is the last of the
    collection and its finished flag is the value of
    [pageCount === readPage] on the supplied values. *)
Theorem create_finished_flag (books books' : list book) (id now : string)
  (p : payload) (r : response) :
  addBookHandler books id now (Some p) = (Normal r, books') ->
  statusCode r = 201 ->
  exists b, books' = books ++ [b]
    /\ b_id b = id
    /\ b_finished b = strict_eq (p_pageCount p) (p_readPage p).
Proof.
  rewrite addBookHandler_cases. intros H Hcode.
  destruct (negb (supplied (p_name p))).
  { inversion H; subst; simpl in Hcode; discriminate. }
  destruct (js_gt (p_readPage p) (p_pageCount p)) as [[|] | e];
    inversion H; subst; simpl in Hcode; try discriminate.
  exists (newBook id now p). repeat split.
Qed.

(** C10 (amended): when [name] is supplied, [readPage] is a number and
    [pageCount] is absent, the comparison [readPage > pageCount] is false,
    the record is appended as sent, the answer is status success with code
    201, and the stored finished flag is false. *)
Theorem create_without_pageCount (books : list book) (id now : string)
  (p : payload) (n : number) :
  p_name p <> JUndefined ->
  p_readPage p = JNum n ->
  p_pageCount p = JUndefined ->
  js_gt (p_readPage p) (p_pageCount p) = Normal false
  /\ exists b,
       addBookHandler books id now (Some p) =
       (Normal {| status := "success";
                  message := Some "Buku berhasil ditambahkan";
                  data := DataBookId id; statusCode := 201 |}, books ++ [b])
       /\ b_id b = id
       /\ b_readPage b = JNum n
       /\ b_pageCount b = JUndefined
       /\ b_finished b = false.
Proof.
  intros Hname Hread Hcount.
  assert (Hgt : js_gt (p_readPage p) (p_pageCount p) = Normal false).
  { rewrite Hread, Hcount. apply js_gt_number_undefined. }
  split; [exact Hgt|].
  exists (newBook id now p). rewrite addBookHandler_cases, Hgt.
  apply supplied_true in Hname. rewrite Hname.
  unfold newBook; simpl. rewrite Hread, Hcount. repeat split.
Qed.

(** ** Create, then GetById *)

(** C8: after a successful Create whose generated id is new to the
    collection, GetById with the returned id answers status success, code
    200, and the record made of the supplied fields, the id, the derived
    finished flag and the two timestamps of the creation. *)
Theorem create_then_get (books books' : list book) (id now : string)
  (p : payload) (r : response) :
  Forall (fun b => b_id b <> id) books ->
  addBookHandler books id now (Some p) = (Normal r, books') ->
  statusCode r = 201 ->
  data r = DataBookId id
  /\ getBookByIdHandler books' id =
     {| status := "success"; message := None;
        data := DataBook
          (mkBook id (p_name p) (p_year p) (p_author p) (p_summary p)
             (p_publisher p) (p_pageCount p) (p_readPage p)
             (strict_eq (p_pageCount p) (p_readPage p)) (p_reading p)
             now now);
        statusCode := 200 |}.
Proof.
  intros Hfresh. rewrite addBookHandler_cases. intros H Hcode.
  destruct (negb (supplied (p_name p))).
  { inversion H; subst; simpl in Hcode; discriminate. }
  destruct (js_gt (p_readPage p) (p_pageCount p)) as [[|] | e];
    inversion H; subst; simpl in Hcode; try discriminate.
  split; [reflexivity|].
  unfold getBookByIdHandler. rewrite List.filter_app.
  rewrite filter_none by (apply id_differs; exact Hfresh).
  simpl. rewrite String.eqb_refl. reflexivity.
Qed.

(** ** UpdateById *)

Lemma editBookByIdHandler_invalid (books : list book) (bookId now : string)
  (p : payload) :
  p_name p = JUndefined
  \/ js_gt (p_readPage p) (p_pageCount p) = Normal true ->
  editBookByIdHandler books bookId now (Some p) =
  (Normal {| status := "fail";
             message :=
               Some (if supplied (p_name p)
                     then "Gagal memperbarui buku. readPage tidak boleh lebih besar dari pageCount"
                     else "Gagal memperbarui buku. Mohon isi nama buku");
             data := NoData; statusCode := 400 |},
   books).
Proof.
  intros H. unfold editBookByIdHandler. rewrite typeof_undefined.
  destruct (supplied (p_name p)) eqn:Hs; cbn [negb]; [|reflexivity].
  destruct H as [H | H].
  - rewrite H in Hs. discriminate.
  - rewrite H. reflexivity.
Qed.

Lemma editBookByIdHandler_valid (books : list book) (bookId now : string)
  (p : payload) :
  p_name p <> JUndefined ->
  js_gt (p_readPage p) (p_pageCount p) = Normal false ->
  editBookByIdHandler books bookId now (Some p) =
  let index := findIndex (fun b => String.eqb (b_id b) bookId) books in
  if index =? -1 then
    (Normal {| status := "fail";
               message := Some "Gagal memperbarui buku. Id tidak ditemukan";
               data := NoData; statusCode := 404 |}, books)
  else
    (Normal {| status := "success"; message := Some "Buku berhasil diperbarui";
               data := NoData; statusCode := 200 |},
     alter (edited p now) (Z.to_nat index) books).
Proof.
  intros Hname Hgt. unfold editBookByIdHandler.
  rewrite typeof_undefined, Hgt.
  apply supplied_true in Hname. rewrite Hname.
  cbn [negb]. cbv zeta.
  destruct (findIndex (fun b => String.eqb (b_id b) bookId) books =? -1);
    reflexivity.
Qed.

(** The ways out of [editBookByIdHandler] on a payload that can be
    destructured. *)
Lemma editBookByIdHandler_cases (books : list book) (bookId now : string)
  (p : payload) :
  (exists r,
     editBookByIdHandler books bookId now (Some p) = (Normal r, books)
     /\ status r = "fail" /\ statusCode r = 400
     /\ passes_validation (p_name p) (p_pageCount p) (p_readPage p) = false)
  \/ (editBookByIdHandler books bookId now (Some p) = (Throw TypeError, books)
      /\ passes_validation (p_name p) (p_pageCount p) (p_readPage p) = false)
  \/ (passes_validation (p_name p) (p_pageCount p) (p_readPage p) = true
      /\ Forall (fun b => String.eqb (b_id b) bookId = false) books
      /\ editBookByIdHandler books bookId now (Some p) =
         (Normal {| status := "fail";
                    message := Some "Gagal memperbarui buku. Id tidak ditemukan";
                    data := NoData; statusCode := 404 |}, books))
  \/ (passes_validation (p_name p) (p_pageCount p) (p_readPage p) = true
      /\ exists before old after,
           books = before ++ old :: after
           /\ Forall (fun b => String.eqb (b_id b) bookId = false) before
           /\ String.eqb (b_id old) bookId = true
           /\ editBookByIdHandler books bookId now (Some p) =
              (Normal {| status := "success";
                         message := Some "Buku berhasil diperbarui";
                         data := NoData; statusCode := 200 |},
               before ++ edited p now old :: after)).
Proof.
  unfold passes_validation.
  destruct (supplied (p_name p)) eqn:Hs; cbn [andb].
  2: { left. eexists.
       split; [apply editBookByIdHandler_invalid; left;
               apply supplied_false; exact Hs | repeat split]. }
  destruct (js_gt (p_readPage p) (p_pageCount p)) as [[|] | []] eqn:Hgt.
  - left. eexists.
    split; [apply editBookByIdHandler_invalid; right; exact Hgt
           | repeat split].
  - right. right.
    apply supplied_true in Hs.
    rewrite (editBookByIdHandler_valid _ _ _ _ Hs Hgt). cbv zeta.
    destruct (first_match_split (fun b => String.eqb (b_id b) bookId) books)
      as [Hnone | (before & old & after & -> & Hbefore & Hold)].
    + left. rewrite findIndex_none by exact Hnone. repeat split. exact Hnone.
    + right. split; [reflexivity|]. exists before, old, after.
      rewrite findIndex_found by assumption.
      replace (Z.of_nat (length before) =? -1) with false
        by (symmetry; apply Z.eqb_neq; lia).
      rewrite Nat2Z.id, alter_app_r_alt by lia. rewrite Nat.sub_diag.
      repeat split; assumption.
  - right. left. split; [|reflexivity].
    unfold editBookByIdHandler. rewrite typeof_undefined, Hs, Hgt. reflexivity.
Qed.

(** C2: a successful UpdateById rewrites the first record with the given
    id and nothing else: name, year, author, summary, publisher,
    pageCount, readPage and reading take the supplied values, updatedAt
    the current time, and id, insertedAt and the finished flag keep their
    stored values. *)
Theorem edit_replaces_editable_fields (books books' : list book)
  (bookId now : string) (p : payload) (r : response) :
  editBookByIdHandler books bookId now (Some p) = (Normal r, books') ->
  statusCode r = 200 ->
  exists before old after,
    books = before ++ old :: after
    /\ Forall (fun b => b_id b <> bookId) before
    /\ b_id old = bookId
    /\ books' =
       before ++
       mkBook (b_id old) (p_name p) (p_year p) (p_author p) (p_summary p)
         (p_publisher p) (p_pageCount p) (p_readPage p) (b_finished old)
         (p_reading p) (b_insertedAt old) now :: after.
Proof.
  intros H Hcode.
  destruct (editBookByIdHandler_cases books bookId now p)
    as [(r' & E & _ & H400 & _) | [[E _] | [(_ & _ & E)
        | (_ & before & old & after & -> & Hbefore & Hold & E)]]];
    rewrite E in H; inversion H; subst; simpl in Hcode; try congruence.
  exists before, old, after. repeat split.
  - apply id_differs. exact Hbefore.
  - apply String.eqb_eq. exact Hold.
Qed.

(** C4 (amended): on a payload that can be destructured (it is not
    null), UpdateById decides the payload before it looks at the id.  A
    payload without name, or with [readPage > pageCount], is answered
    with status fail and code 400 whatever the id; a payload with a name
    and with [readPage > pageCount] false, sent with an id that no record
    has, is answered with status fail and code 404.  The collection stays
    as it was in both cases. *)
Theorem edit_validates_before_lookup (books : list book)
  (bookId now : string) (p : payload) :
  (p_name p = JUndefined
   \/ js_gt (p_readPage p) (p_pageCount p) = Normal true ->
   exists r,
     editBookByIdHandler books bookId now (Some p) = (Normal r, books)
     /\ status r = "fail" /\ statusCode r = 400)
  /\ (p_name p <> JUndefined ->
      js_gt (p_readPage p) (p_pageCount p) = Normal false ->
      Forall (fun b => b_id b <> bookId) books ->
      exists r,
        editBookByIdHandler books bookId now (Some p) = (Normal r, books)
        /\ status r = "fail" /\ statusCode r = 404).
Proof.
  split.
  - intros H. eexists. split; [apply editBookByIdHandler_invalid, H|].
    split; reflexivity.
  - intros Hname Hgt Hmissing.
    rewrite (editBookByIdHandler_valid _ _ _ _ Hname Hgt). cbv zeta.
    rewrite findIndex_none by (apply id_differs; exact Hmissing).
    eexists. split; [reflexivity|]. split; reflexivity.
Qed.

(** ** DeleteById *)

(** C7: DeleteById on an id that some record has removes the first such
    record and nothing else, the records before and after it staying in
    their order, and answers status success with code 200; on an id that
    no record has it answers status fail with code 404 and the collection
    stays as it was. *)
Theorem delete_removes_one (books : list book) (bookId : string) :
  (Exists (fun b => b_id b = bookId) books ->
   exists before old after,
     books = before ++ old :: after
     /\ Forall (fun b => b_id b <> bookId) before
     /\ b_id old = bookId
     /\ deleteBookByIdHandler books bookId =
        ({| status := "success"; message := Some "Buku berhasil dihapus";
            data := NoData; statusCode := 200 |}, before ++ after))
  /\ (Forall (fun b => b_id b <> bookId) books ->
      deleteBookByIdHandler books bookId =
      ({| status := "fail";
          message := Some "Buku gagal dihapus. Id tidak ditemukan";
          data := NoData; statusCode := 404 |}, books)).
Proof.
  unfold deleteBookByIdHandler. cbv zeta. split.
  - intros Hex.
    destruct (first_match_split (fun b => String.eqb (b_id b) bookId) books)
      as [Hnone | (before & old & after & -> & Hbefore & Hold)].
    + exfalso. apply Exists_exists in Hex as (b & Hin & Hb).
      rewrite Forall_forall in Hnone. specialize (Hnone b Hin). simpl in Hnone.
      apply String.eqb_neq in Hnone. contradiction.
    + exists before, old, after.
      rewrite findIndex_found by assumption.
      replace (Z.of_nat (length before) =? -1) with false
        by (symmetry; apply Z.eqb_neq; lia).
      rewrite Nat2Z.id, delete_middle. repeat split.
      * apply id_differs. exact Hbefore.
      * apply String.eqb_eq. exact Hold.
  - intros Hmissing.
    rewrite findIndex_none by (apply id_differs; exact Hmissing).
    reflexivity.
Qed.

End Properties.

(** * The properties at sample requests *)

Lemma list_last_filter_wins_witness :
  (2 <= supplied_filters all_three_filters)%nat
  /\ getAllBooksHandler shelf all_three_filters =
     Normal (list_response [summary_of book_alpha; summary_of book_epsilon])
  /\ reading_matches (q_reading all_three_filters) book_epsilon = Normal false.
Proof.
  assert (H : (2 <= supplied_filters all_three_filters)%nat)
    by (vm_compute; lia).
  split; [exact H|]. split; [|reflexivity].
  rewrite (list_last_filter_wins shelf all_three_filters H). reflexivity.
Defined.

Lemma create_rejects_invalid_witness :
  js_gt (p_readPage payload_nameless) (p_pageCount payload_nameless)
  = Normal true
  /\ addBookHandler shelf "id-new-0000000009" later (Some payload_nameless) =
     (Normal {| status := "fail";
                message := Some "Gagal menambahkan buku. Mohon isi nama buku";
                data := NoData; statusCode := 400 |}, shelf).
Proof.
  split; [reflexivity|].
  exact (create_rejects_invalid shelf "id-new-0000000009" later payload_nameless
           (or_introl eq_refl)).
Defined.

Lemma create_internal_error_unreachable_witness :
  addBookHandler [] "id-alpha-00000001" "2024-01-01T00:00:00.000Z"
    (Some payload_alpha) =
  (Normal {| status := "success"; message := Some "Buku berhasil ditambahkan";
             data := DataBookId "id-alpha-00000001"; statusCode := 201 |},
   [book_alpha]).
Proof.
  destruct (create_internal_error_unreachable []
              "id-alpha-00000001" "2024-01-01T00:00:00.000Z"
              (Some payload_alpha)) as (_ & H).
  apply (H payload_alpha); [reflexivity | discriminate | reflexivity].
Defined.

Lemma create_finished_flag_witness :
  exists b,
    snd (addBookHandler [book_gamma] "id-alpha-00000001" later
           (Some payload_alpha))
    = [book_gamma] ++ [b]
    /\ b_id b = "id-alpha-00000001"
    /\ b_finished b = true.
Proof.
  apply (create_finished_flag [book_gamma] _ "id-alpha-00000001" later
           payload_alpha
           {| status := "success"; message := Some "Buku berhasil ditambahkan";
              data := DataBookId "id-alpha-00000001"; statusCode := 201 |});
    reflexivity.
Defined.

Lemma create_without_pageCount_witness :
  exists b,
    addBookHandler shelf "id-delta-00000004" later (Some payload_no_pageCount) =
    (Normal {| status := "success"; message := Some "Buku berhasil ditambahkan";
               data := DataBookId "id-delta-00000004"; statusCode := 201 |},
     shelf ++ [b])
    /\ b_id b = "id-delta-00000004"
    /\ b_readPage b = num 5
    /\ b_pageCount b = JUndefined
    /\ b_finished b = false.
Proof.
  apply (create_without_pageCount shelf "id-delta-00000004" later
           payload_no_pageCount (Some 5));
    [discriminate | reflexivity | reflexivity].
Defined.

Lemma create_then_get_witness :
  getBookByIdHandler
    (snd (addBookHandler [book_alpha] "id-gamma-00000003"
            "2024-01-03T00:00:00.000Z" (Some payload_gamma)))
    "id-gamma-00000003"
  = {| status := "success"; message := None; data := DataBook book_gamma;
       statusCode := 200 |}.
Proof.
  refine (proj2 (create_then_get [book_alpha] _ "id-gamma-00000003"
                   "2024-01-03T00:00:00.000Z" payload_gamma
                   {| status := "success";
                      message := Some "Buku berhasil ditambahkan";
                      data := DataBookId "id-gamma-00000003";
                      statusCode := 201 |}
                   _ _ _)).
  - repeat constructor. discriminate.
  - reflexivity.
  - reflexivity.
Defined.

Lemma edit_replaces_editable_fields_witness :
  exists before old after,
    shelf = before ++ old :: after
    /\ Forall (fun b => b_id b <> "id-alpha-00000001") before
    /\ b_id old = "id-alpha-00000001"
    /\ snd (editBookByIdHandler shelf "id-alpha-00000001" later
              (Some payload_gamma)) =
       before ++
       mkBook (b_id old) (JStr "Gamma") (num 2022) (JStr "Cy") (JStr "third")
         (JStr "Pub C") (num 80) (num 20) (b_finished old) (JBool true)
         (b_insertedAt old) later :: after.
Proof.
  apply (edit_replaces_editable_fields shelf _ "id-alpha-00000001" later
           payload_gamma
           {| status := "success"; message := Some "Buku berhasil diperbarui";
              data := NoData; statusCode := 200 |}); reflexivity.
Defined.

Lemma edit_validates_before_lookup_witness :
  (exists r,
     editBookByIdHandler shelf "no-such-id" later (Some payload_nameless)
     = (Normal r, shelf)
     /\ status r = "fail" /\ statusCode r = 400)
  /\ (exists r,
        editBookByIdHandler shelf "no-such-id" later (Some payload_gamma)
        = (Normal r, shelf)
        /\ status r = "fail" /\ statusCode r = 404).
Proof.
  split.
  - apply (proj1 (edit_validates_before_lookup shelf "no-such-id" later
                    payload_nameless)).
    left. reflexivity.
  - apply (proj2 (edit_validates_before_lookup shelf "no-such-id" later
                    payload_gamma)).
    + discriminate.
    + reflexivity.
    + repeat constructor; discriminate.
Defined.

Lemma delete_removes_one_witness :
  (exists before old after,
     shelf = before ++ old :: after
     /\ Forall (fun b => b_id b <> "id-gamma-00000003") before
     /\ b_id old = "id-gamma-00000003"
     /\ deleteBookByIdHandler shelf "id-gamma-00000003" =
        ({| status := "success"; message := Some "Buku berhasil dihapus";
            data := NoData; statusCode := 200 |}, before ++ after))
  /\ deleteBookByIdHandler shelf "no-such-id" =
     ({| status := "fail";
         message := Some "Buku gagal dihapus. Id tidak ditemukan";
         data := NoData; statusCode := 404 |}, shelf).
Proof.
  split.
  - apply (proj1 (delete_removes_one shelf "id-gamma-00000003")).
    apply Exists_cons_tl, Exists_cons_hd. reflexivity.
  - apply (proj2 (delete_removes_one shelf "no-such-id")).
    repeat constructor; discriminate.
Defined.

Lemma list_succeeds_witness :
  (exists listBook,
     getAllBooksHandler shelf no_filter =
     Normal {| status := "success"; message := None;
               data := DataBooks listBook; statusCode := 200 |}
     /\ (supplied_filters no_filter = 0%nat ->
         listBook =
         map (fun b => mkSummary (b_id b) (b_name b) (b_publisher b)) shelf)
     /\ (shelf = [] -> listBook = []))
  /\ (exists listBook,
        getAllBooksHandler shelf reading_1 =
        Normal {| status := "success"; message := None;
                  data := DataBooks listBook; statusCode := 200 |}
        /\ (supplied_filters reading_1 = 0%nat ->
            listBook =
            map (fun b => mkSummary (b_id b) (b_name b) (b_publisher b)) shelf)
        /\ (shelf = [] -> listBook = [])).
Proof.
  split.
  - apply (list_succeeds shelf no_filter). right.
    repeat split; left; reflexivity.
  - apply (list_succeeds shelf reading_1). right.
    split; [left; reflexivity|]. split; [|left; reflexivity].
    right. split; [reflexivity|]. repeat constructor.
Defined.

(** * Where the code departs from the specification *)

(** C3, as stated, fails: a Create request without a body has no name,
    and destructuring its null payload raises a TypeError before the name
    check, so no 400 is answered. *)
Lemma create_without_body_raises :
  addBookHandler shelf "id-new-0000000009" later None
  = (Throw TypeError, shelf)
  /\ ~ exists r,
         fst (addBookHandler shelf "id-new-0000000009" later None) = Normal r.
Proof. split; [reflexivity|]. intros [r Hr]. discriminate Hr. Qed.

(** C4, as stated, fails: an UpdateById request without a body has no
    valid payload, and destructuring its null payload raises a TypeError
    before either validation, so no 400 is answered. *)
Lemma edit_without_body_raises :
  editBookByIdHandler shelf "no-such-id" later None
  = (Throw TypeError, shelf)
  /\ ~ exists r,
         fst (editBookByIdHandler shelf "no-such-id" later None) = Normal r.
Proof. split; [reflexivity|]. intros [r Hr]. discriminate Hr. Qed.

(** C9, as stated, fails: [{"name": null}] is accepted by Create, and a
    List call with a name filter then raises a TypeError at
    [book.name.toLowerCase()] instead of answering. *)
Lemma list_raises_on_null_name :
  (exists r,
     fst (addBookHandler [] "id-null-000000007" later (Some payload_null_name))
     = Normal r /\ statusCode r = 201)
  /\ getAllBooksHandler
       (snd (addBookHandler [] "id-null-000000007" later
               (Some payload_null_name)))
       name_a
     = Throw TypeError
  /\ ~ exists r,
         getAllBooksHandler
           (snd (addBookHandler [] "id-null-000000007" later
                   (Some payload_null_name)))
           name_a
         = Normal r.
Proof.
  split; [eexists; split; reflexivity|]. split; [reflexivity|].
  intros [r Hr]. vm_compute in Hr. discriminate.
Qed.

(** C10, as stated, fails: with [readPage] a number and [pageCount]
    absent, a Create call that also lacks [name] is answered with code 400
    and stores nothing. *)
Lemma create_readPage_only_rejected :
  p_readPage payload_readPage_only = num 5
  /\ p_pageCount payload_readPage_only = JUndefined
  /\ addBookHandler [] "id-new-0000000009" later (Some payload_readPage_only) =
     (Normal {| status := "fail";
                message := Some "Gagal menambahkan buku. Mohon isi nama buku";
                data := NoData; statusCode := 400 |}, []).
Proof. repeat split. Qed.

(** A stored object without a usable [toString] makes the reading step
    raise: [{"name": "Zeta", "reading": {"toString": null}}] is accepted
    by Create, and [?reading=1] then raises a TypeError at
    [Number(book.reading)]. *)
Example list_raises_on_object_reading :
  addBookHandler shelf "id-zeta-000000008" later (Some payload_object_reading)
  = (Normal {| status := "success"; message := Some "Buku berhasil ditambahkan";
               data := DataBookId "id-zeta-000000008"; statusCode := 201 |},
     shelf ++ [newBook "id-zeta-000000008" later payload_object_reading])
  /\ getAllBooksHandler
       (shelf ++ [newBook "id-zeta-000000008" later payload_object_reading])
       reading_1
     = Throw TypeError.
Proof. split; reflexivity. Qed.

(** After an update the stored finished flag is the one computed at
    creation: Alpha stays finished with 20 pages read of 80, and Gamma
    stays unfinished with 100 read of 100. *)
Example edit_keeps_finished_flag :
  snd (editBookByIdHandler [book_alpha] "id-alpha-00000001" later
         (Some payload_gamma))
  = [mkBook "id-alpha-00000001" (JStr "Gamma") (num 2022) (JStr "Cy")
       (JStr "third") (JStr "Pub C") (num 80) (num 20) true (JBool true)
       "2024-01-01T00:00:00.000Z" later]
  /\ map b_finished
       (snd (editBookByIdHandler [book_gamma] "id-gamma-00000003" later
               (Some payload_alpha)))
     = [false].
Proof. split; reflexivity. Qed.

(** Filters do not compose: with [?reading=1&finished=1] Epsilon, which is
    not being read, is listed, because the finished step filters the whole
    collection again. *)
Example list_filters_do_not_compose :
  getAllBooksHandler shelf reading_and_finished =
  Normal (list_response [summary_of book_alpha; summary_of book_epsilon])
  /\ List.filter (fun b => holds (finished_matches (JStr "1") b))
       (List.filter (fun b => holds (reading_matches (JStr "1") b)) shelf)
     = [book_alpha].
Proof. split; reflexivity. Qed.

(** The scenario of the specification: Alpha with 100 pages of 100 is
    created as finished, Beta with 60 pages of 50 is refused, and
    [?reading=1] lists the one book that is being read. *)
Example scenario :
  addBookHandler [] "id-alpha-00000001" "2024-01-01T00:00:00.000Z"
    (Some payload_alpha)
  = (Normal {| status := "success"; message := Some "Buku berhasil ditambahkan";
               data := DataBookId "id-alpha-00000001"; statusCode := 201 |},
     [book_alpha])
  /\ b_finished book_alpha = true
  /\ addBookHandler [book_alpha] "id-beta-000000002" later (Some payload_beta)
     = (Normal {| status := "fail";
                  message := Some "Gagal menambahkan buku. readPage tidak boleh lebih besar dari pageCount";
                  data := NoData; statusCode := 400 |}, [book_alpha])
  /\ getAllBooksHandler [book_alpha; book_epsilon] reading_1
     = Normal (list_response [summary_of book_alpha]).
Proof. repeat split. Qed.

(** * Further properties of the handlers *)

Section Further.
Context {Num : JSNumber}.

(** ** Outcomes of the write handlers *)

Lemma addBookHandler_accepts (books : list book) (id now : string)
  (p : payload) :
  passes_validation (p_name p) (p_pageCount p) (p_readPage p) = true ->
  addBookHandler books id now (Some p) =
  (Normal {| status := "success"; message := Some "Buku berhasil ditambahkan";
             data := DataBookId id; statusCode := 201 |},
   books ++ [newBook id now p]).
Proof.
  unfold passes_validation. intros H. rewrite addBookHandler_cases.
  apply andb_true_iff in H as [-> H]. cbn [negb].
  destruct (js_gt (p_readPage p) (p_pageCount p)) as [[|] | e];
    try discriminate. reflexivity.
Qed.

Lemma addBookHandler_refuses (books : list book) (id now : string)
  (p : payload) :
  passes_validation (p_name p) (p_pageCount p) (p_readPage p) = false ->
  snd (addBookHandler books id now (Some p)) = books
  /\ forall r, fst (addBookHandler books id now (Some p)) = Normal r ->
               status r = "fail" /\ statusCode r = 400.
Proof.
  unfold passes_validation. intros H. rewrite addBookHandler_cases.
  destruct (supplied (p_name p)); cbn [negb andb] in *.
  - destruct (js_gt (p_readPage p) (p_pageCount p)) as [[|] | e];
      try discriminate; simpl; (split; [reflexivity|]);
      intros r Hr; inversion Hr; subst; split; reflexivity.
  - simpl. split; [reflexivity|].
    intros r Hr; inversion Hr; subst; split; reflexivity.
Qed.

Lemma deleteBookByIdHandler_outcomes (books : list book) (bookId : string) :
  (Forall (fun b => String.eqb (b_id b) bookId = false) books
   /\ deleteBookByIdHandler books bookId =
      ({| status := "fail";
          message := Some "Buku gagal dihapus. Id tidak ditemukan";
          data := NoData; statusCode := 404 |}, books))
  \/ exists before old after,
       books = before ++ old :: after
       /\ Forall (fun b => String.eqb (b_id b) bookId = false) before
       /\ String.eqb (b_id old) bookId = true
       /\ deleteBookByIdHandler books bookId =
          ({| status := "success"; message := Some "Buku berhasil dihapus";
              data := NoData; statusCode := 200 |}, before ++ after).
Proof.
  unfold deleteBookByIdHandler. cbv zeta.
  destruct (first_match_split (fun b => String.eqb (b_id b) bookId) books)
    as [Hnone | (before & old & after & -> & Hbefore & Hold)].
  - left. rewrite findIndex_none by exact Hnone. split; [exact Hnone|reflexivity].
  - right. exists before, old, after.
    rewrite findIndex_found by assumption.
    replace (Z.of_nat (length before) =? -1) with false
      by (symmetry; apply Z.eqb_neq; lia).
    rewrite Nat2Z.id, delete_middle. repeat split; assumption.
Qed.

(** ** Lookup by id *)

Lemma lookup_first (bookId : string) (before after : list book) (b : book) :
  Forall (fun b => String.eqb (b_id b) bookId = false) before ->
  String.eqb (b_id b) bookId = true ->
  getBookByIdHandler (before ++ b :: after) bookId =
  {| status := "success"; message := None; data := DataBook b;
     statusCode := 200 |}.
Proof.
  intros Hbefore Hb. unfold getBookByIdHandler.
  rewrite List.filter_app, (filter_none _ _ Hbefore). simpl.
  rewrite Hb. reflexivity.
Qed.

Lemma lookup_none (bookId : string) (books : list book) :
  Forall (fun b => String.eqb (b_id b) bookId = false) books ->
  getBookByIdHandler books bookId =
  {| status := "fail"; message := Some "Buku tidak ditemukan"; data := NoData;
     statusCode := 404 |}.
Proof.
  intros H. unfold getBookByIdHandler. rewrite (filter_none _ _ H). reflexivity.
Qed.

Lemma lookup_skip (bookId : string) (before after : list book) (b b' : book) :
  String.eqb (b_id b) bookId = false ->
  String.eqb (b_id b') bookId = false ->
  getBookByIdHandler (before ++ b :: after) bookId =
  getBookByIdHandler (before ++ b' :: after) bookId
  /\ getBookByIdHandler (before ++ b :: after) bookId =
     getBookByIdHandler (before ++ after) bookId.
Proof.
  intros Hb Hb'. unfold getBookByIdHandler.
  rewrite !List.filter_app. simpl. rewrite Hb, Hb'. split; reflexivity.
Qed.

(** X1: GetById answers with the first record of the collection that has
    the id, status success and code 200; when no record has the id it
    answers status fail with code 404. *)
Theorem get_first_match_or_404 (books : list book) (bookId : string) :
  (forall before b after,
     books = before ++ b :: after ->
     Forall (fun x => b_id x <> bookId) before ->
     b_id b = bookId ->
     getBookByIdHandler books bookId =
     {| status := "success"; message := None; data := DataBook b;
        statusCode := 200 |})
  /\ (Forall (fun x => b_id x <> bookId) books ->
      getBookByIdHandler books bookId =
      {| status := "fail"; message := Some "Buku tidak ditemukan";
         data := NoData; statusCode := 404 |}).
Proof.
  split.
  - intros before b after -> Hbefore Hb.
    apply lookup_first; [apply id_differs; exact Hbefore|].
    apply String.eqb_eq. exact Hb.
  - intros H. apply lookup_none, id_differs, H.
Qed.

(** X2: a write handler that does not answer status success leaves the
    collection as it was, also when it raises; Create answers 201 or 400,
    UpdateById 200, 400 or 404, DeleteById 200 or 404, and the code is 200
    or 201 exactly when the status is success. *)
Theorem failed_write_changes_nothing (books : list book)
  (id now : string) (payload : option payload) :
  let outcome (allowed : list Z) (res : completion response * list book) :=
    (forall r, fst res = Normal r ->
               In (statusCode r) allowed
               /\ (status r = "success" <->
                   statusCode r = 200 \/ statusCode r = 201))
    /\ ((forall r, fst res = Normal r -> status r <> "success") ->
        snd res = books) in
  outcome [201; 400] (addBookHandler books id now payload)
  /\ outcome [200; 400; 404] (editBookByIdHandler books id now payload)
  /\ outcome [200; 404]
       (Normal (fst (deleteBookByIdHandler books id)),
        snd (deleteBookByIdHandler books id)).
Proof.
  cbv zeta.
  assert (Hcode : forall (allowed : list Z) (r0 : response) (bs : list book),
            In (statusCode r0) allowed ->
            (status r0 = "success" <->
             statusCode r0 = 200 \/ statusCode r0 = 201) ->
            (status r0 = "success" \/ bs = books) ->
            (forall r, fst (Normal r0, bs) = Normal r ->
                       In (statusCode r) allowed
                       /\ (status r = "success" <->
                           statusCode r = 200 \/ statusCode r = 201))
            /\ ((forall r, fst (Normal r0, bs) = Normal r ->
                           status r <> "success") ->
                snd (Normal r0, bs) = books)).
  { intros allowed r0 bs Hin Hiff Hor. split.
    - intros r Hr. inversion Hr; subst. auto.
    - intros Hns. destruct Hor as [Hs | ->]; [|reflexivity].
      exfalso. exact (Hns r0 eq_refl Hs). }
  assert (Hthrow : forall (allowed : list Z),
            (forall r, fst (@Throw response TypeError, books) = Normal r ->
                       In (statusCode r) allowed
                       /\ (status r = "success" <->
                           statusCode r = 200 \/ statusCode r = 201))
            /\ ((forall r, fst (@Throw response TypeError, books) = Normal r ->
                           status r <> "success") ->
                snd (@Throw response TypeError, books) = books)).
  { intros allowed. split; [intros r Hr; discriminate Hr | reflexivity]. }
  assert (Hknown : forall (allowed : list Z) (r0 : response) (bs : list book),
            In (statusCode r0) allowed ->
            (status r0 = "success" /\ statusCode r0 = 200
             \/ status r0 = "success" /\ statusCode r0 = 201
             \/ status r0 = "fail" /\ statusCode r0 = 400 /\ bs = books
             \/ status r0 = "fail" /\ statusCode r0 = 404 /\ bs = books) ->
            (forall r, fst (Normal r0, bs) = Normal r ->
                       In (statusCode r) allowed
                       /\ (status r = "success" <->
                           statusCode r = 200 \/ statusCode r = 201))
            /\ ((forall r, fst (Normal r0, bs) = Normal r ->
                           status r <> "success") ->
                snd (Normal r0, bs) = books)).
  { intros allowed r0 bs Hin Hor. apply Hcode; [exact Hin | |].
    - destruct Hor as [[-> ->] | [[-> ->] | [(-> & -> & _) | (-> & -> & _)]]];
        split; intros H; auto; try discriminate H;
        destruct H as [H | H]; discriminate H.
    - destruct Hor as [[? _] | [[? _] | [(_ & _ & ?) | (_ & _ & ?)]]]; auto. }
  split; [|split].
  - destruct payload as [p|]; [|apply Hthrow].
    rewrite addBookHandler_cases.
    destruct (negb (supplied (p_name p)));
      [|destruct (js_gt (p_readPage p) (p_pageCount p)) as [[|] | []]];
      try apply Hthrow; apply Hknown; simpl; auto 10.
  - destruct payload as [p|]; [|apply Hthrow].
    destruct (editBookByIdHandler_cases books id now p)
      as [(r' & -> & Hst & H400 & _) | [[-> _] | [(_ & _ & ->)
          | (_ & before & old & after & _ & _ & _ & ->)]]];
      try apply Hthrow; apply Hknown; simpl; rewrite ?H400; simpl; auto 10.
  - destruct (deleteBookByIdHandler_outcomes books id)
      as [[_ ->] | (before & old & after & _ & _ & _ & ->)];
      apply Hknown; simpl; auto 10.
Qed.

(** The collection after a write. *)
Lemma addBookHandler_after (books : list book) (id now : string)
  (payload : option payload) :
  snd (addBookHandler books id now payload) = books
  \/ exists p,
       payload = Some p
       /\ passes_validation (p_name p) (p_pageCount p) (p_readPage p) = true
       /\ snd (addBookHandler books id now payload)
          = books ++ [newBook id now p].
Proof.
  destruct payload as [p|]; [|left; reflexivity].
  destruct (passes_validation (p_name p) (p_pageCount p) (p_readPage p)) eqn:Hv.
  - right. exists p. rewrite (addBookHandler_accepts _ _ _ _ Hv). auto.
  - left. apply addBookHandler_refuses, Hv.
Qed.

Lemma editBookByIdHandler_after (books : list book) (bookId now : string)
  (payload : option payload) :
  snd (editBookByIdHandler books bookId now payload) = books
  \/ exists p before old after,
       payload = Some p
       /\ passes_validation (p_name p) (p_pageCount p) (p_readPage p) = true
       /\ books = before ++ old :: after
       /\ Forall (fun b => String.eqb (b_id b) bookId = false) before
       /\ String.eqb (b_id old) bookId = true
       /\ snd (editBookByIdHandler books bookId now payload)
          = before ++ edited p now old :: after.
Proof.
  destruct payload as [p|]; [|left; reflexivity].
  destruct (editBookByIdHandler_cases books bookId now p)
    as [(r' & -> & _) | [[-> _] | [(_ & _ & ->)
        | (Hv & before & old & after & Hb & Hbefore & Hold & ->)]]];
    try (left; reflexivity).
  right. exists p, before, old, after. auto 10.
Qed.

(** ** What the writes keep *)

(** X3: whatever it answers, UpdateById keeps the number of records and,
    position by position, every record's id, insertedAt and finished
    flag. *)
Theorem edit_keeps_identity (books : list book) (bookId now : string)
  (payload : option payload) :
  map b_id (snd (editBookByIdHandler books bookId now payload)) = map b_id books
  /\ map b_insertedAt (snd (editBookByIdHandler books bookId now payload))
     = map b_insertedAt books
  /\ map b_finished (snd (editBookByIdHandler books bookId now payload))
     = map b_finished books
  /\ length (snd (editBookByIdHandler books bookId now payload))
     = length books.
Proof.
  destruct (editBookByIdHandler_after books bookId now payload)
    as [-> | (p & before & old & after & _ & _ & -> & _ & _ & ->)].
  - repeat split.
  - rewrite !List.map_app, !List.length_app. simpl. repeat split.
Qed.

(** X4: ids stay pairwise distinct.  If no two records share an id, the
    same holds after UpdateById and after DeleteById, and after Create
    when the generated id is not in the collection yet. *)
Theorem writes_keep_ids_distinct (books : list book) (id now : string)
  (payload : option payload) :
  NoDup (map b_id books) ->
  (Forall (fun b => b_id b <> id) books ->
   NoDup (map b_id (snd (addBookHandler books id now payload))))
  /\ NoDup (map b_id (snd (editBookByIdHandler books id now payload)))
  /\ NoDup (map b_id (snd (deleteBookByIdHandler books id))).
Proof.
  intros Hnd. split; [|split].
  - intros Hfresh.
    destruct (addBookHandler_after books id now payload)
      as [-> | (p & _ & _ & ->)]; [exact Hnd|].
    rewrite List.map_app. simpl. apply NoDup_app. split; [exact Hnd|].
    split; [|apply NoDup_singleton].
    intros x Hx Hx'. apply list_elem_of_singleton in Hx'. subst x.
    apply list_elem_of_In, in_map_iff in Hx as (b & Hb & Hin).
    rewrite List.Forall_forall in Hfresh. exact (Hfresh b Hin Hb).
  - destruct (editBookByIdHandler_after books id now payload)
      as [-> | (p & before & old & after & _ & _ & -> & _ & _ & ->)];
      [exact Hnd|].
    rewrite List.map_app in *. exact Hnd.
  - destruct (deleteBookByIdHandler_outcomes books id)
      as [[_ ->] | (before & old & after & -> & _ & _ & ->)]; simpl.
    + exact Hnd.
    + rewrite List.map_app in *. simpl in Hnd.
      eapply sublist_NoDup; [exact Hnd|].
      apply sublist_app; [reflexivity|]. apply sublist_cons. reflexivity.
Qed.

(** X5: every collection built from the empty one by Create, UpdateById
    and DeleteById calls holds only records that pass both write
    validations: a name that is not undefined, and [readPage > pageCount]
    false. *)
Theorem stored_records_pass_validation (reqs : list write_request) :
  Forall (fun b => stored_ok b = true) (serve_all reqs).
Proof.
  unfold serve_all.
  assert (Hstep : forall books req,
            Forall (fun b => stored_ok b = true) books ->
            Forall (fun b => stored_ok b = true) (serve books req)).
  { intros books [id now payload | bookId now payload | bookId] Hok; simpl.
    - destruct (addBookHandler_after books id now payload)
        as [-> | (p & _ & Hv & ->)]; [exact Hok|].
      apply Forall_app. split; [exact Hok|].
      constructor; [exact Hv | constructor].
    - destruct (editBookByIdHandler_after books bookId now payload)
        as [-> | (p & before & old & after & _ & Hv & -> & _ & _ & ->)];
        [exact Hok|].
      apply Forall_app in Hok as [Hb Ha]. apply Forall_app.
      split; [exact Hb|]. inversion Ha; subst.
      constructor; [exact Hv | assumption].
    - destruct (deleteBookByIdHandler_outcomes books bookId)
        as [[_ ->] | (before & old & after & -> & _ & _ & ->)]; simpl.
      + exact Hok.
      + apply Forall_app in Hok as [Hb Ha]. apply Forall_app.
        split; [exact Hb|]. inversion Ha; subst. assumption. }
  assert (Hall : forall books,
            Forall (fun b => stored_ok b = true) books ->
            Forall (fun b => stored_ok b = true) (fold_left serve reqs books)).
  { induction reqs as [|req reqs IH]; intros books Hok; simpl.
    - exact Hok.
    - apply IH, Hstep, Hok. }
  apply Hall. constructor.
Qed.

(** ** How the handlers compose *)

Lemma editBookByIdHandler_hit (before after : list book) (old : book)
  (bookId now : string) (p : payload) :
  passes_validation (p_name p) (p_pageCount p) (p_readPage p) = true ->
  Forall (fun b => String.eqb (b_id b) bookId = false) before ->
  String.eqb (b_id old) bookId = true ->
  editBookByIdHandler (before ++ old :: after) bookId now (Some p) =
  (Normal {| status := "success"; message := Some "Buku berhasil diperbarui";
             data := NoData; statusCode := 200 |},
   before ++ edited p now old :: after).
Proof.
  unfold passes_validation. intros H Hbefore Hold.
  apply andb_true_iff in H as [Hs Hgt].
  destruct (js_gt (p_readPage p) (p_pageCount p)) as [[|] | e] eqn:E;
    try discriminate.
  apply supplied_true in Hs.
  rewrite (editBookByIdHandler_valid _ _ _ _ Hs E). cbv zeta.
  rewrite findIndex_found by assumption.
  replace (Z.of_nat (length before) =? -1) with false
    by (symmetry; apply Z.eqb_neq; lia).
  rewrite Nat2Z.id, alter_app_r_alt by lia. rewrite Nat.sub_diag. reflexivity.
Qed.

Lemma deleteBookByIdHandler_hit (before after : list book) (old : book)
  (bookId : string) :
  Forall (fun b => String.eqb (b_id b) bookId = false) before ->
  String.eqb (b_id old) bookId = true ->
  deleteBookByIdHandler (before ++ old :: after) bookId =
  ({| status := "success"; message := Some "Buku berhasil dihapus";
      data := NoData; statusCode := 200 |}, before ++ after).
Proof.
  intros Hbefore Hold. unfold deleteBookByIdHandler. cbv zeta.
  rewrite findIndex_found by assumption.
  replace (Z.of_nat (length before) =? -1) with false
    by (symmetry; apply Z.eqb_neq; lia).
  rewrite Nat2Z.id, delete_middle. reflexivity.
Qed.

Lemma eqb_id_other (b : book) (bookId other : string) :
  String.eqb (b_id b) bookId = true -> other <> bookId ->
  String.eqb (b_id b) other = false.
Proof.
  intros Hb Hne. apply String.eqb_eq in Hb. apply String.eqb_neq. congruence.
Qed.

(** X6: after a successful UpdateById, GetById with the same id answers
    the updated record: the supplied values in the eight editable fields,
    the time of the update in updatedAt, and the id, insertedAt and
    finished flag of a record that was stored under that id. *)
Theorem edit_then_get (books books' : list book) (bookId now : string)
  (p : payload) (r : response) :
  editBookByIdHandler books bookId now (Some p) = (Normal r, books') ->
  statusCode r = 200 ->
  exists old,
    In old books /\ b_id old = bookId
    /\ getBookByIdHandler books' bookId =
       {| status := "success"; message := None;
          data := DataBook
            (mkBook bookId (p_name p) (p_year p) (p_author p) (p_summary p)
               (p_publisher p) (p_pageCount p) (p_readPage p)
               (b_finished old) (p_reading p) (b_insertedAt old) now);
          statusCode := 200 |}.
Proof.
  intros H Hcode.
  destruct (editBookByIdHandler_cases books bookId now p)
    as [(r' & E & _ & H400 & _) | [[E _] | [(_ & _ & E)
        | (_ & before & old & after & -> & Hbefore & Hold & E)]]];
    rewrite E in H; inversion H; subst; simpl in Hcode; try congruence.
  exists old. split; [apply in_or_app; right; left; reflexivity|].
  assert (Hid : b_id old = bookId) by (apply String.eqb_eq; exact Hold).
  split; [exact Hid|].
  rewrite (lookup_first bookId before after (edited p now old) Hbefore Hold).
  unfold edited. rewrite Hid. reflexivity.
Qed.

(** X7: in a collection without repeated ids, GetById with an id answers
    404 once DeleteById was called with that id. *)
Theorem delete_then_get (books : list book) (bookId : string) :
  NoDup (map b_id books) ->
  getBookByIdHandler (snd (deleteBookByIdHandler books bookId)) bookId =
  {| status := "fail"; message := Some "Buku tidak ditemukan"; data := NoData;
     statusCode := 404 |}.
Proof.
  intros Hnd.
  destruct (deleteBookByIdHandler_outcomes books bookId)
    as [[Hnone ->] | (before & old & after & -> & Hbefore & Hold & ->)]; simpl.
  - apply lookup_none, Hnone.
  - apply lookup_none. apply Forall_app. split; [exact Hbefore|].
    rewrite List.map_app in Hnd. simpl in Hnd.
    apply NoDup_app in Hnd as (_ & _ & Hnd).
    apply NoDup_cons in Hnd as [Hnotin _].
    apply List.Forall_forall. intros b Hb. apply String.eqb_neq. intros E.
    apply Hnotin. apply String.eqb_eq in Hold. rewrite Hold, <- E.
    apply list_elem_of_In, in_map, Hb.
Qed.

(** X8: a successful Create with an id that is new to the collection,
    followed by DeleteById with that id, gives the collection back as it
    was before the two calls. *)
Theorem create_then_delete (books : list book) (id now : string)
  (payload : option payload) (r : response) :
  Forall (fun b => b_id b <> id) books ->
  fst (addBookHandler books id now payload) = Normal r ->
  statusCode r = 201 ->
  deleteBookByIdHandler (snd (addBookHandler books id now payload)) id =
  ({| status := "success"; message := Some "Buku berhasil dihapus";
      data := NoData; statusCode := 200 |}, books).
Proof.
  intros Hfresh Hr Hcode. destruct payload as [p|]; [|discriminate Hr].
  destruct (passes_validation (p_name p) (p_pageCount p) (p_readPage p)) eqn:Hv.
  - rewrite (addBookHandler_accepts _ _ _ _ Hv). simpl.
    rewrite deleteBookByIdHandler_hit.
    + rewrite List.app_nil_r. reflexivity.
    + apply id_differs, Hfresh.
    + apply String.eqb_refl.
  - destruct (addBookHandler_refuses books id now p Hv) as [_ H].
    destruct (H r Hr) as [_ H400]. congruence.
Qed.

(** X9: a write under one id does not change what GetById answers for
    any other id. *)
Theorem writes_leave_other_ids (books : list book) (id other now : string)
  (payload : option payload) :
  other <> id ->
  getBookByIdHandler (snd (addBookHandler books id now payload)) other
  = getBookByIdHandler books other
  /\ getBookByIdHandler (snd (editBookByIdHandler books id now payload)) other
     = getBookByIdHandler books other
  /\ getBookByIdHandler (snd (deleteBookByIdHandler books id)) other
     = getBookByIdHandler books other.
Proof.
  intros Hne. split; [|split].
  - destruct (addBookHandler_after books id now payload)
      as [-> | (p & _ & _ & ->)]; [reflexivity|].
    assert (Hnew : String.eqb (b_id (newBook id now p)) other = false).
    { apply String.eqb_neq. simpl. congruence. }
    rewrite (proj2 (lookup_skip other books [] _ _ Hnew Hnew)).
    rewrite List.app_nil_r. reflexivity.
  - destruct (editBookByIdHandler_after books id now payload)
      as [-> | (p & before & old & after & _ & _ & -> & _ & Hold & ->)];
      [reflexivity|].
    apply lookup_skip;
      [change (b_id (edited p now old)) with (b_id old)|];
      eapply eqb_id_other; eauto.
  - destruct (deleteBookByIdHandler_outcomes books id)
      as [[_ ->] | (before & old & after & -> & _ & Hold & ->)]; simpl;
      [reflexivity|].
    symmetry.
    assert (Hother : String.eqb (b_id old) other = false)
      by (eapply eqb_id_other; eauto).
    exact (proj2 (lookup_skip other before after old old Hother Hother)).
Qed.

(** X10: an update overwrites all of the one before it.  Two UpdateById
    calls on the same id, the second with a payload that passes
    validation, answer and leave the collection exactly as the second call
    alone would have. *)
Theorem last_update_wins (books : list book) (bookId now1 now2 : string)
  (payload1 : option payload) (p2 : payload) :
  passes_validation (p_name p2) (p_pageCount p2) (p_readPage p2) = true ->
  editBookByIdHandler
    (snd (editBookByIdHandler books bookId now1 payload1)) bookId now2
    (Some p2)
  = editBookByIdHandler books bookId now2 (Some p2).
Proof.
  intros Hv2.
  destruct (editBookByIdHandler_after books bookId now1 payload1)
    as [-> | (p & before & old & after & _ & _ & -> & Hbefore & Hold & ->)];
    [reflexivity|].
  rewrite !editBookByIdHandler_hit by assumption. reflexivity.
Qed.

(** ** List, in full *)

Lemma step_raises_iff (sup : jsval) (c : bool) (g : book -> bool)
  (b : book) (books : list book) :
  supplied sup && negb (c && forallb g (b :: books)) = true <->
  sup <> JUndefined
  /\ (c = false \/ Exists (fun x => g x = false) (b :: books)).
Proof.
  rewrite andb_true_iff, negb_true_iff, andb_false_iff, supplied_true.
  rewrite forallb_false_Exists. tauto.
Qed.

(** X11: List raises a TypeError exactly when the collection is not
    empty and a supplied filter cannot be applied: the name filter or a
    stored name is not a string, the reading filter or a stored reading
    value does not convert to a number, or the finished filter does not.
    Every other call answers status success with code 200. *)
Theorem list_raises_iff (books : list book) (q : query) :
  (getAllBooksHandler books q = Throw TypeError <->
   books <> []
   /\ ((q_name q <> JUndefined
        /\ (is_string (q_name q) = false
            \/ Exists (fun b => is_string (b_name b) = false) books))
       \/ (q_reading q <> JUndefined
           /\ (converts (q_reading q) = false
               \/ Exists (fun b => converts (b_reading b) = false) books))
       \/ (q_finished q <> JUndefined /\ converts (q_finished q) = false)))
  /\ (getAllBooksHandler books q <> Throw TypeError ->
      exists listBook,
        getAllBooksHandler books q =
        Normal {| status := "success"; message := None;
                  data := DataBooks listBook; statusCode := 200 |}).
Proof.
  rewrite getAllBooksHandler_spec.
  assert (Hchar : list_raises books q = true <->
            books <> []
            /\ ((q_name q <> JUndefined
                 /\ (is_string (q_name q) = false
                     \/ Exists (fun b => is_string (b_name b) = false) books))
                \/ (q_reading q <> JUndefined
                    /\ (converts (q_reading q) = false
                        \/ Exists (fun b => converts (b_reading b) = false)
                             books))
                \/ (q_finished q <> JUndefined
                    /\ converts (q_finished q) = false))).
  { destruct books as [|b books].
    - simpl. split; [discriminate | intros [H _]; congruence].
    - unfold list_raises, name_step_raises, reading_step_raises,
        finished_step_raises.
      rewrite !orb_true_iff, !step_raises_iff.
      rewrite andb_true_iff, negb_true_iff, supplied_true.
      split; [intros H; split; [discriminate | tauto] | tauto]. }
  split.
  - rewrite <- Hchar. destruct (list_raises books q); split; congruence.
  - destruct (list_raises books q); [congruence|].
    intros _. eexists. reflexivity.
Qed.

(** X12: what List returns is cut out of the collection: its summaries
    are those of a sub-sequence of the stored records, in the order of
    the collection. *)
Theorem list_is_subsequence (books : list book) (q : query) (r : response) :
  getAllBooksHandler books q = Normal r ->
  exists kept,
    sublist kept books
    /\ r = {| status := "success"; message := None;
              data := DataBooks
                (map (fun b => mkSummary (b_id b) (b_name b) (b_publisher b))
                   kept);
              statusCode := 200 |}.
Proof.
  rewrite getAllBooksHandler_spec.
  destruct (list_raises books q); [discriminate|].
  intros H. inversion H; subst.
  exists (List.filter (effective_filter q) books).
  split; [apply filter_sublist | reflexivity].
Qed.

(** ** The name filter *)

Lemma prefix_append (t s : string) :
  String.prefix t s = true <-> exists post, s = (t ++ post)%string.
Proof.
  revert s. induction t as [|a t IH]; intros s.
  - split; [intros _; exists s; reflexivity | intros _; destruct s; reflexivity].
  - destruct s as [|c s]; simpl.
    + split; [discriminate | intros [post H]; discriminate].
    + destruct (ascii_dec a c) as [-> | Hac].
      * rewrite IH. split; intros [post H]; exists post; congruence.
      * split; [discriminate | intros [post H]; congruence].
Qed.

Lemma includes_append (s t : string) :
  includes s t = true <-> exists pre post, s = (pre ++ t ++ post)%string.
Proof.
  induction s as [|c s IH].
  - cbn [includes]. rewrite orb_false_r, prefix_append. split.
    + intros [post H]. exists EmptyString, post. exact H.
    + intros (pre & post & H). destruct pre; [|discriminate].
      exists post. exact H.
  - cbn [includes]. rewrite orb_true_iff, prefix_append, IH. split.
    + intros [[post H] | (pre & post & H)].
      * exists EmptyString, post. exact H.
      * exists (String c pre), post. simpl. congruence.
    + intros (pre & post & H). destruct pre as [|c' pre]; simpl in H.
      * left. exists post. exact H.
      * right. exists pre, post. congruence.
Qed.

Lemma includes_empty (s : string) : includes s EmptyString = true.
Proof. apply includes_append. exists EmptyString, s. reflexivity. Qed.

Lemma name_only_is_safe (books : list book) (n : string) :
  Forall (fun b => is_string (b_name b) = true) books ->
  list_raises books (mkQuery (JStr n) JUndefined JUndefined) = false.
Proof.
  intros Hstr. destruct books as [|b books]; [reflexivity|].
  unfold list_raises, name_step_raises, reading_step_raises,
    finished_step_raises. simpl q_name. simpl q_reading. simpl q_finished.
  cbn [supplied is_string andb orb].
  rewrite (Forall_forallb _ _ Hstr). reflexivity.
Qed.

Lemma ascii_names_are_strings (books : list book) :
  Forall (fun b => is_ascii_string (b_name b) = true) books ->
  Forall (fun b => is_string (b_name b) = true) books.
Proof.
  intros H. eapply Forall_impl; [exact H|]. simpl. intros b.
  destruct (b_name b); simpl; congruence.
Qed.

(** X13: with only a name filter, when the filter and every stored name
    are strings of ASCII characters, List returns the records whose
    lower-cased name contains the lower-cased filter as a substring, and
    only those, in the order of the collection. *)
Theorem list_by_name (books : list book) (n : string) :
  ascii_text n = true ->
  Forall (fun b => is_ascii_string (b_name b) = true) books ->
  exists kept,
    getAllBooksHandler books (mkQuery (JStr n) JUndefined JUndefined) =
    Normal {| status := "success"; message := None;
              data := DataBooks
                (map (fun b => mkSummary (b_id b) (b_name b) (b_publisher b))
                   kept);
              statusCode := 200 |}
    /\ sublist kept books
    /\ forall b,
         In b kept <->
         In b books
         /\ exists bn pre post,
              b_name b = JStr bn
              /\ toLowerCase bn = (pre ++ toLowerCase n ++ post)%string.
Proof.
  intros _ Hascii. apply ascii_names_are_strings in Hascii.
  exists (List.filter (name_contains (JStr n)) books).
  split; [|split].
  - rewrite getAllBooksHandler_spec, (name_only_is_safe _ _ Hascii).
    reflexivity.
  - apply filter_sublist.
  - intros b. rewrite filter_In. unfold name_contains.
    split; intros [Hin H]; (split; [exact Hin|]).
    + destruct (b_name b) as [| | | |bn| |]; try discriminate.
      apply includes_append in H as (pre & post & H).
      exists bn, pre, post. split; [reflexivity | exact H].
    + destruct H as (bn & pre & post & -> & H).
      apply includes_append. exists pre, post. exact H.
Qed.

(** X14: the name filter does not see letter case: two filters with the
    same lower-cased form give the same outcome, whatever the collection
    and the other filters. *)
Theorem list_name_ignores_case (books : list book) (n1 n2 : string)
  (reading finished : jsval) :
  toLowerCase n1 = toLowerCase n2 ->
  getAllBooksHandler books (mkQuery (JStr n1) reading finished)
  = getAllBooksHandler books (mkQuery (JStr n2) reading finished).
Proof.
  intros Hcase. unfold getAllBooksHandler. simpl.
  rewrite (filter_throwing_ext (name_matches (JStr n1)) (name_matches (JStr n2)));
    [reflexivity|].
  intros b. unfold name_matches. rewrite Hcase. reflexivity.
Qed.

(** X15: an empty name filter ([?name=]) filters nothing out: on a
    collection whose names are all strings it lists every record. *)
Theorem list_empty_name_lists_all (books : list book) :
  Forall (fun b => is_string (b_name b) = true) books ->
  getAllBooksHandler books (mkQuery (JStr "") JUndefined JUndefined) =
  Normal {| status := "success"; message := None;
            data := DataBooks
              (map (fun b => mkSummary (b_id b) (b_name b) (b_publisher b))
                 books);
            statusCode := 200 |}.
Proof.
  intros Hstr.
  rewrite getAllBooksHandler_spec, (name_only_is_safe _ _ Hstr).
  rewrite filter_all; [reflexivity|].
  eapply Forall_impl; [exact Hstr|]. simpl. intros b Hb.
  unfold effective_filter, name_contains. simpl.
  destruct (b_name b); try discriminate.
  apply includes_empty.
Qed.

(** ** The reading and finished filters *)

Lemma list_safe (books : list book) (q : query) :
  (q_name q = JUndefined
   \/ (is_string (q_name q) = true
       /\ Forall (fun b => is_string (b_name b) = true) books)) ->
  (q_reading q = JUndefined
   \/ (converts (q_reading q) = true
       /\ Forall (fun b => converts (b_reading b) = true) books)) ->
  (q_finished q = JUndefined \/ converts (q_finished q) = true) ->
  list_raises books q = false.
Proof.
  intros Hn Hr Hf. destruct books as [|b books]; [reflexivity|].
  unfold list_raises, name_step_raises, reading_step_raises,
    finished_step_raises.
  assert (H1 : supplied (q_name q)
               && negb (is_string (q_name q)
                        && forallb (fun b => is_string (b_name b))
                             (b :: books)) = false).
  { destruct Hn as [-> | [-> Hall]]; [reflexivity|].
    rewrite (Forall_forallb _ _ Hall). apply andb_false_r. }
  assert (H2 : supplied (q_reading q)
               && negb (converts (q_reading q)
                        && forallb (fun b => converts (b_reading b))
                             (b :: books)) = false).
  { destruct Hr as [-> | [-> Hall]]; [reflexivity|].
    rewrite (Forall_forallb _ _ Hall). apply andb_false_r. }
  assert (H3 : supplied (q_finished q) && negb (converts (q_finished q))
               = false).
  { destruct Hf as [-> | ->]; [reflexivity | apply andb_false_r]. }
  rewrite H1, H2, H3. reflexivity.
Qed.

Lemma converts_Normal (v : jsval) (x : number) :
  Number v = Normal x -> converts v = true.
Proof. unfold converts. intros ->. reflexivity. Qed.

(** X16: a reading or finished filter matches by number, and NaN matches
    nothing.  When no step raises, a finished filter whose value converts
    to NaN (such as [?finished=true]) lists no record; so does such a
    reading filter, and any reading filter on records stored without a
    reading value. *)
Theorem list_nan_matches_nothing (books : list book) (reading finished : jsval) :
  (finished <> JUndefined ->
   Number finished = Normal NaN ->
   reading = JUndefined
   \/ (converts reading = true
       /\ Forall (fun b => converts (b_reading b) = true) books) ->
   getAllBooksHandler books (mkQuery JUndefined reading finished) =
   Normal (list_response []))
  /\ (reading <> JUndefined ->
      (Number reading = Normal NaN
       /\ Forall (fun b => converts (b_reading b) = true) books)
      \/ (converts reading = true
          /\ Forall (fun b => b_reading b = JUndefined) books) ->
      getAllBooksHandler books (mkQuery JUndefined reading JUndefined) =
      Normal (list_response [])).
Proof.
  split.
  - intros Hsup Hnan Hread. rewrite getAllBooksHandler_spec.
    rewrite list_safe;
      [| left; reflexivity | exact Hread
       | right; simpl; eapply converts_Normal; exact Hnan].
    rewrite filter_none; [reflexivity|].
    apply List.Forall_forall. intros x _. unfold effective_filter.
    simpl q_finished. apply supplied_true in Hsup. rewrite Hsup.
    unfold finished_matches. rewrite Hnan. unfold Number at 1. simpl.
    destruct (b_finished x); simpl; rewrite num_eq_NaN_r; reflexivity.
  - intros Hsup Hcase. rewrite getAllBooksHandler_spec.
    assert (Hconv : converts reading = true
                    /\ Forall (fun b => converts (b_reading b) = true) books).
    { destruct Hcase as [[Hnan Hall] | [Hc Hall]].
      - split; [eapply converts_Normal; exact Hnan | exact Hall].
      - split; [exact Hc|]. eapply Forall_impl; [exact Hall|].
        simpl. intros b ->. reflexivity. }
    rewrite list_safe;
      [| left; reflexivity | right; exact Hconv | left; reflexivity].
    rewrite filter_none; [reflexivity|].
    unfold effective_filter. simpl q_finished. simpl q_reading.
    apply supplied_true in Hsup. rewrite Hsup. cbn [supplied].
    destruct Hcase as [[Hnan Hall] | [Hc Hall]].
    + apply List.Forall_forall. intros x _. unfold reading_matches.
      rewrite Hnan. destruct (Number (b_reading x)); simpl; [|reflexivity].
      rewrite num_eq_NaN_r. reflexivity.
    + eapply Forall_impl; [exact Hall|]. simpl. intros x Hx.
      unfold reading_matches. rewrite Hx. unfold Number at 1. simpl.
      destruct (Number reading); simpl; [|reflexivity].
      rewrite num_eq_NaN_l. reflexivity.
Qed.

(** X17: after a successful Create, List without filters returns the
    listing of before followed by the summary of the new record. *)
Theorem create_then_list (books books' : list book) (id now : string)
  (p : payload) (r : response) (q : query) :
  addBookHandler books id now (Some p) = (Normal r, books') ->
  statusCode r = 201 ->
  supplied_filters q = 0%nat ->
  getAllBooksHandler books' q =
  Normal {| status := "success"; message := None;
            data := DataBooks
              (map (fun b => mkSummary (b_id b) (b_name b) (b_publisher b))
                 books
               ++ [mkSummary id (p_name p) (p_publisher p)]);
            statusCode := 200 |}.
Proof.
  rewrite addBookHandler_cases. intros H Hcode Hnone.
  destruct (negb (supplied (p_name p))).
  { inversion H; subst; simpl in Hcode; discriminate. }
  destruct (js_gt (p_readPage p) (p_pageCount p)) as [[|] | e];
    inversion H; subst; simpl in Hcode; try discriminate.
  unfold supplied_filters in Hnone.
  destruct (supplied (q_name q)) eqn:Hn, (supplied (q_reading q)) eqn:Hr,
    (supplied (q_finished q)) eqn:Hf; try discriminate.
  apply supplied_false in Hn, Hr, Hf.
  rewrite getAllBooksHandler_spec, list_safe by (left; assumption).
  rewrite filter_all.
  - rewrite List.map_app. reflexivity.
  - apply List.Forall_forall. intros x _. unfold effective_filter.
    rewrite Hn, Hr, Hf. reflexivity.
Qed.

(** ** When a conversion raises *)

Lemma ToString_cons (x : jsval) (items : list jsval) :
  ToString (JArr (x :: items)) =
  bind (match x with
        | JUndefined | JNull => Normal ""%string
        | _ => ToString x
        end) (fun next =>
  match items with
  | [] => Normal next
  | _ => bind (ToString (JArr items))
           (fun r => Normal (next ++ "," ++ r)%string)
  end).
Proof. destruct items; reflexivity. Qed.

Lemma hides_toString_cons (x : jsval) (items : list jsval) :
  hides_toString (JArr (x :: items))
  = hides_toString x || hides_toString (JArr items).
Proof. reflexivity. Qed.

Lemma ToString_returns (v : jsval) :
  returns (ToString v) = negb (hides_toString v).
Proof.
  revert v. fix IH 1. intros [| | [|] | n | s | items | props];
    try reflexivity.
  - induction items as [|x items IHitems]; [reflexivity|].
    rewrite ToString_cons, hides_toString_cons.
    assert (Hx : returns (match x with
                          | JUndefined | JNull => Normal ""%string
                          | _ => ToString x
                          end) = negb (hides_toString x)).
    { pose proof (IH x) as Hx. destruct x as [| | [|] | | | |]; try reflexivity; exact Hx. }
    destruct (match x with
              | JUndefined | JNull => Normal ""%string
              | _ => ToString x
              end) as [next | e]; simpl in Hx;
      destruct (hides_toString x); try discriminate Hx; [|reflexivity].
    cbn [bind orb]. destruct items as [|y items]; [reflexivity|].
    rewrite <- IHitems.
    destruct (ToString (JArr (y :: items))); reflexivity.
  - simpl. destruct (has_own "toString" props); reflexivity.
Qed.

(** X19: [Number(v)] raises a TypeError exactly when [v] is an object
    with an own [toString] property or an array that holds such an
    object, at any depth; every other value converts, primitives among
    them. *)
Theorem converts_iff (v : jsval) :
  (converts v = false <-> hides_toString v = true)
  /\ (Number v = Throw TypeError <-> hides_toString v = true)
  /\ (forall props, converts (JObj props) = negb (has_own "toString" props)).
Proof.
  assert (H : converts v = negb (hides_toString v)).
  { unfold converts, Number, ToPrimitive.
    destruct v; try reflexivity;
      match goal with
      | |- context [ToString ?x] =>
          rewrite <- (ToString_returns x); destruct (ToString x); reflexivity
      end. }
  split; [|split].
  - rewrite H. destruct (hides_toString v); simpl; split; congruence.
  - unfold converts in H. destruct (Number v) as [x | []]; simpl in H;
      destruct (hides_toString v); simpl in H; split; congruence.
  - intros props. unfold converts, Number, ToPrimitive. simpl.
    destruct (has_own "toString" props); reflexivity.
Qed.

(** ** When a write raises *)

Lemma js_gt_raises (x y : jsval) :
  js_gt x y = Throw TypeError <-> converts x = false \/ converts y = false.
Proof.
  unfold js_gt, converts, Number.
  destruct (ToPrimitive x) as [px | []]; simpl.
  - destruct (ToPrimitive y) as [py | []]; simpl;
      split; intros H; try discriminate; auto.
    destruct H; discriminate.
  - split; auto.
Qed.

(** X18: Create and UpdateById raise a TypeError exactly when the request
    has no body, or when a name is supplied and [readPage] or [pageCount]
    does not convert to a primitive value for the comparison; the
    collection is then unchanged. *)
Theorem writes_raise_iff (books : list book) (id now : string)
  (payload : option payload) :
  let unreadable :=
    match payload with
    | None => True
    | Some p =>
        p_name p <> JUndefined
        /\ (converts (p_readPage p) = false
            \/ converts (p_pageCount p) = false)
    end in
  (fst (addBookHandler books id now payload) = Throw TypeError <-> unreadable)
  /\ (fst (editBookByIdHandler books id now payload) = Throw TypeError
      <-> unreadable)
  /\ (unreadable ->
      snd (addBookHandler books id now payload) = books
      /\ snd (editBookByIdHandler books id now payload) = books).
Proof.
  cbv zeta. destruct payload as [p|].
  2: { repeat split; auto. }
  rewrite <- js_gt_raises, <- supplied_true.
  unfold addBookHandler, editBookByIdHandler.
  rewrite typeof_undefined.
  destruct (supplied (p_name p)); cbn [negb].
  - destruct (js_gt (p_readPage p) (p_pageCount p)) as [[|] | []]; simpl.
    + intuition discriminate.
    + cbv zeta. rewrite newBook_found.
      destruct (negb (findIndex _ books =? -1)); simpl;
        intuition discriminate.
    + intuition.
  - simpl. intuition discriminate.
Qed.

End Further.

(** * The further properties at sample requests *)

(** Closes [NoDup] on a list of distinct string literals. *)
Ltac distinct_ids :=
  simpl;
  repeat (apply NoDup_cons; split;
          [rewrite ?not_elem_of_cons;
           repeat split; try discriminate; apply not_elem_of_nil|]);
  constructor.

Lemma get_first_match_or_404_witness :
  getBookByIdHandler shelf "id-gamma-00000003" =
  {| status := "success"; message := None; data := DataBook book_gamma;
     statusCode := 200 |}
  /\ getBookByIdHandler shelf "no-such-id" =
     {| status := "fail"; message := Some "Buku tidak ditemukan";
        data := NoData; statusCode := 404 |}.
Proof.
  split.
  - apply (proj1 (get_first_match_or_404 shelf "id-gamma-00000003")
             [book_alpha] book_gamma [book_epsilon]).
    + reflexivity.
    + repeat constructor; discriminate.
    + reflexivity.
  - apply (proj2 (get_first_match_or_404 shelf "no-such-id")).
    repeat constructor; discriminate.
Defined.

Lemma failed_write_changes_nothing_witness :
  snd (addBookHandler shelf "id-beta-000000002" later (Some payload_beta))
  = shelf
  /\ snd (editBookByIdHandler shelf "id-alpha-00000001" later None) = shelf.
Proof.
  destruct (failed_write_changes_nothing shelf "id-beta-000000002" later
              (Some payload_beta)) as ((_ & Hadd) & _).
  destruct (failed_write_changes_nothing shelf "id-alpha-00000001" later
              None) as (_ & (_ & Hedit) & _).
  split.
  - apply Hadd. intros r Hr. inversion Hr; subst. discriminate.
  - apply Hedit. intros r Hr. discriminate Hr.
Defined.

Lemma edit_keeps_identity_witness :
  map b_finished
    (snd (editBookByIdHandler shelf "id-gamma-00000003" later
            (Some payload_alpha)))
  = [true; false; true].
Proof.
  destruct (edit_keeps_identity shelf "id-gamma-00000003" later
              (Some payload_alpha)) as (_ & _ & H & _).
  rewrite H. reflexivity.
Defined.

Lemma writes_keep_ids_distinct_witness :
  NoDup (map b_id
           (snd (addBookHandler shelf "id-delta-00000004" later
                   (Some payload_no_pageCount))))
  /\ NoDup (map b_id (snd (deleteBookByIdHandler shelf "id-delta-00000004"))).
Proof.
  assert (Hnd : NoDup (map b_id shelf)).
  { distinct_ids. }
  destruct (writes_keep_ids_distinct shelf "id-delta-00000004" later
              (Some payload_no_pageCount) Hnd) as (Hadd & _ & Hdel).
  split; [apply Hadd | exact Hdel].
  repeat constructor; discriminate.
Defined.

Lemma stored_records_pass_validation_witness :
  serve_all session =
  [mkBook "id-gamma-00000003" (JStr "Epsilon") (num 2023) (JStr "Eve")
     (JStr "fifth") (JStr "Pub E") (num 30) (num 30) false (JBool false)
     "2024-01-03T00:00:00.000Z" later]
  /\ Forall (fun b => stored_ok b = true) (serve_all session).
Proof.
  split; [reflexivity|]. exact (stored_records_pass_validation session).
Defined.

Lemma edit_then_get_witness :
  exists old,
    In old shelf /\ b_id old = "id-gamma-00000003"
    /\ getBookByIdHandler
         (snd (editBookByIdHandler shelf "id-gamma-00000003" later
                 (Some payload_epsilon)))
         "id-gamma-00000003" =
       {| status := "success"; message := None;
          data := DataBook
            (mkBook "id-gamma-00000003" (JStr "Epsilon") (num 2023)
               (JStr "Eve") (JStr "fifth") (JStr "Pub E") (num 30) (num 30)
               (b_finished old) (JBool false) (b_insertedAt old) later);
          statusCode := 200 |}.
Proof.
  apply (edit_then_get shelf _ "id-gamma-00000003" later payload_epsilon
           {| status := "success"; message := Some "Buku berhasil diperbarui";
              data := NoData; statusCode := 200 |}); reflexivity.
Defined.

Lemma delete_then_get_witness :
  getBookByIdHandler (snd (deleteBookByIdHandler shelf "id-alpha-00000001"))
    "id-alpha-00000001" =
  {| status := "fail"; message := Some "Buku tidak ditemukan"; data := NoData;
     statusCode := 404 |}.
Proof.
  apply (delete_then_get shelf "id-alpha-00000001").
  distinct_ids.
Defined.

Lemma create_then_delete_witness :
  deleteBookByIdHandler
    (snd (addBookHandler shelf "id-delta-00000004" later
            (Some payload_no_pageCount)))
    "id-delta-00000004" =
  ({| status := "success"; message := Some "Buku berhasil dihapus";
      data := NoData; statusCode := 200 |}, shelf).
Proof.
  apply (create_then_delete shelf "id-delta-00000004" later
           (Some payload_no_pageCount)
           {| status := "success"; message := Some "Buku berhasil ditambahkan";
              data := DataBookId "id-delta-00000004"; statusCode := 201 |}).
  - repeat constructor; discriminate.
  - reflexivity.
  - reflexivity.
Defined.

Lemma writes_leave_other_ids_witness :
  getBookByIdHandler
    (snd (editBookByIdHandler shelf "id-gamma-00000003" later
            (Some payload_epsilon)))
    "id-alpha-00000001"
  = getBookByIdHandler shelf "id-alpha-00000001"
  /\ getBookByIdHandler
       (snd (deleteBookByIdHandler shelf "id-gamma-00000003"))
       "id-epsilon-000005"
     = getBookByIdHandler shelf "id-epsilon-000005".
Proof.
  split.
  - apply (writes_leave_other_ids shelf "id-gamma-00000003"
             "id-alpha-00000001" later (Some payload_epsilon)).
    discriminate.
  - apply (writes_leave_other_ids shelf "id-gamma-00000003"
             "id-epsilon-000005" later (Some payload_epsilon)).
    discriminate.
Defined.

Lemma last_update_wins_witness :
  editBookByIdHandler
    (snd (editBookByIdHandler shelf "id-gamma-00000003"
            "2024-01-20T00:00:00.000Z" (Some payload_alpha)))
    "id-gamma-00000003" later (Some payload_epsilon)
  = editBookByIdHandler shelf "id-gamma-00000003" later (Some payload_epsilon).
Proof.
  apply (last_update_wins shelf "id-gamma-00000003"
           "2024-01-20T00:00:00.000Z" later (Some payload_alpha)
           payload_epsilon).
  reflexivity.
Defined.

Lemma list_raises_iff_witness :
  getAllBooksHandler
    (shelf ++ [newBook "id-zeta-000000008" later payload_object_reading])
    reading_1
  = Throw TypeError
  /\ exists listBook,
       getAllBooksHandler shelf name_a =
       Normal {| status := "success"; message := None;
                 data := DataBooks listBook; statusCode := 200 |}.
Proof.
  split.
  - apply (proj1 (list_raises_iff
                    (shelf ++ [newBook "id-zeta-000000008" later
                                 payload_object_reading])
                    reading_1)).
    split; [discriminate|]. right. left. split; [discriminate|].
    right. do 3 apply Exists_cons_tl. apply Exists_cons_hd. reflexivity.
  - apply (proj2 (list_raises_iff shelf name_a)). discriminate.
Defined.

Lemma list_is_subsequence_witness :
  exists kept,
    sublist kept shelf
    /\ list_response [summary_of book_alpha; summary_of book_epsilon] =
       {| status := "success"; message := None;
          data := DataBooks
            (map (fun b => mkSummary (b_id b) (b_name b) (b_publisher b))
               kept);
          statusCode := 200 |}.
Proof.
  apply (list_is_subsequence shelf reading_and_finished). reflexivity.
Defined.

Lemma list_by_name_witness :
  exists kept,
    getAllBooksHandler shelf (mkQuery (JStr "ALP") JUndefined JUndefined) =
    Normal {| status := "success"; message := None;
              data := DataBooks
                (map (fun b => mkSummary (b_id b) (b_name b) (b_publisher b))
                   kept);
              statusCode := 200 |}
    /\ sublist kept shelf
    /\ forall b,
         In b kept <->
         In b shelf
         /\ exists bn pre post,
              b_name b = JStr bn
              /\ toLowerCase bn = (pre ++ toLowerCase "ALP" ++ post)%string.
Proof.
  apply (list_by_name shelf "ALP"); [reflexivity | repeat constructor].
Defined.

Lemma list_name_ignores_case_witness :
  getAllBooksHandler shelf (mkQuery (JStr "ALP") JUndefined JUndefined)
  = getAllBooksHandler shelf (mkQuery (JStr "alp") JUndefined JUndefined)
  /\ getAllBooksHandler shelf (mkQuery (JStr "alp") JUndefined JUndefined)
     = Normal (list_response [summary_of book_alpha]).
Proof.
  split; [|reflexivity].
  apply (list_name_ignores_case shelf "ALP" "alp"). reflexivity.
Defined.

Lemma list_empty_name_lists_all_witness :
  getAllBooksHandler shelf name_empty =
  Normal (list_response
            [summary_of book_alpha; summary_of book_gamma;
             summary_of book_epsilon]).
Proof.
  apply (list_empty_name_lists_all shelf). repeat constructor.
Defined.

Lemma list_nan_matches_nothing_witness :
  getAllBooksHandler shelf (mkQuery JUndefined (JStr "1") (JStr "true"))
  = Normal (list_response [])
  /\ getAllBooksHandler shelf reading_true = Normal (list_response [])
  /\ getAllBooksHandler
       [newBook "id-delta-00000004" later payload_no_pageCount]
       (mkQuery JUndefined (JStr "0") JUndefined)
     = Normal (list_response []).
Proof.
  split; [|split].
  - apply (proj1 (list_nan_matches_nothing shelf (JStr "1") (JStr "true")));
      [discriminate | reflexivity |].
    right. split; [reflexivity | repeat constructor].
  - apply (proj2 (list_nan_matches_nothing shelf (JStr "true") JUndefined));
      [discriminate|].
    left. split; [reflexivity | repeat constructor].
  - apply (proj2 (list_nan_matches_nothing
                    [newBook "id-delta-00000004" later payload_no_pageCount]
                    (JStr "0") JUndefined));
      [discriminate|].
    right. split; [reflexivity | repeat constructor].
Defined.

Lemma create_then_list_witness :
  getAllBooksHandler
    (snd (addBookHandler [book_alpha] "id-gamma-00000003"
            "2024-01-03T00:00:00.000Z" (Some payload_gamma)))
    no_filter
  = Normal (list_response [summary_of book_alpha; summary_of book_gamma]).
Proof.
  apply (create_then_list [book_alpha] _ "id-gamma-00000003"
           "2024-01-03T00:00:00.000Z" payload_gamma
           {| status := "success"; message := Some "Buku berhasil ditambahkan";
              data := DataBookId "id-gamma-00000003"; statusCode := 201 |}
           no_filter); reflexivity.
Defined.

Lemma writes_raise_iff_witness :
  fst (addBookHandler shelf "id-new-0000000009" later None) = Throw TypeError
  /\ fst (editBookByIdHandler shelf "id-alpha-00000001" later
            (Some {| p_name := JStr "Eta"; p_year := JUndefined;
                     p_author := JUndefined; p_summary := JUndefined;
                     p_publisher := JUndefined; p_pageCount := num 10;
                     p_readPage := no_toString; p_reading := JUndefined |}))
     = Throw TypeError.
Proof.
  split.
  - apply (proj1 (writes_raise_iff shelf "id-new-0000000009" later None)).
    exact I.
  - apply (proj1 (proj2 (writes_raise_iff shelf "id-alpha-00000001" later
                           (Some _)))).
    split; [discriminate | left; reflexivity].
Defined.

Lemma converts_iff_witness :
  Number (JArr [num 1; JArr [no_toString]]) = Throw TypeError
  /\ converts (JArr [num 1; JArr [JObj [("valueOf", JNull)]]]) = true.
Proof.
  split.
  - apply (proj1 (proj2 (converts_iff (JArr [num 1; JArr [no_toString]])))).
    reflexivity.
  - destruct (converts_iff (JArr [num 1; JArr [JObj [("valueOf", JNull)]]]))
      as ((H & _) & _).
    destruct (converts (JArr [num 1; JArr [JObj [("valueOf", JNull)]]]));
      [reflexivity|].
    specialize (H eq_refl). discriminate H.
Defined.
